(** * Konsole tmux control-mode decoder: a model of [Vt102Emulation.h]

    The development embeds the tmux part of [src/Vt102Emulation.h]:
    - [parseTmuxId] and the Qt conversion it relies on;
    - the per-notification argument parsers ([push_char] / [execute]) of
      [%output], [%extended-output], [%window-add], [%unlinked-window-add];
    - the command controller [TmuxServerManager] (command queue, session
      table, response routing).

    Conventions.
    - [uint] code points and C++ [int]s are integers in [Z]; arithmetic that
      the source performs on a 32-bit type is followed by an explicit wrap
      ([wrap_uint], [wrap_int]; a signed overflow is taken to wrap as well).
    - [QVector<uint>] is [list Z]; [QList<QVector<uint>>] is [list (list Z)].
    - [QString] is the list of its code points, so that [QString::fromUcs4]
      is the identity.
    - the signals the controller emits and the handlers it runs are returned
      as a list of [Effect]s next to the new controller state.
    - a member whose behaviour can be undefined (the error path, which may
      read a destroyed command object) returns an [option]: [None] stands
      for undefined behaviour, after which nothing is said of the program.
    - [Q_ASSERT] is compiled out, as in a release build. *)

From Stdlib Require Import String Ascii.
From Stdlib Require Import ZArith List Lia Bool.
From stdpp Require Import base option list gmap.
Import ListNotations.
Local Open Scope Z_scope.

(** ** Machine integers and characters *)

(** A character literal of the source, as the code point it denotes. *)
Definition char (a : ascii) : Z := Z.of_N (N_of_ascii a).

(** A string literal of the source, as code points. *)
Definition lit (s : string) : list Z := List.map char (list_ascii_of_string s).

(** Reduction of an unbounded result to [unsigned int] (32 bits). *)
Definition wrap_uint (z : Z) : Z := z mod 2 ^ 32.

(** Reduction of an unbounded result to [int] (32 bits, two's complement). *)
Definition wrap_int (z : Z) : Z := (z + 2 ^ 31) mod 2 ^ 32 - 2 ^ 31.

Definition INT_MIN : Z := - 2 ^ 31.
Definition INT_MAX : Z := 2 ^ 31 - 1.

(** ** Qt strings *)

Definition QString : Type := list Z.

Definition fromUcs4 (v : list Z) : QString := v.

(** [QChar::isSpace]: the ASCII white space, NEL, NBSP and the Unicode
    separator categories Zs, Zl, Zp. *)
Definition isSpace (c : Z) : bool :=
  (c =? 0x20) || ((0x09 <=? c) && (c <=? 0x0d)) || (c =? 0x85) || (c =? 0xa0)
  || (c =? 0x1680) || ((0x2000 <=? c) && (c <=? 0x200a)) || (c =? 0x2028)
  || (c =? 0x2029) || (c =? 0x202f) || (c =? 0x205f) || (c =? 0x3000).

Definition isDigit (c : Z) : bool := (0x30 <=? c) && (c <=? 0x39).

Fixpoint skipSpace (s : list Z) : list Z :=
  match s with
  | c :: r => if isSpace c then skipSpace r else s
  | [] => []
  end.

Definition trimmed (s : list Z) : list Z := rev (skipSpace (rev (skipSpace s))).

(** The value of a run of decimal digits, most significant first;
    [None] when some element is not a digit. *)
Fixpoint decimal (acc : Z) (s : list Z) : option Z :=
  match s with
  | [] => Some acc
  | c :: r => if isDigit c then decimal (acc * 10 + (c - 0x30)) r else None
  end.

(** [QString::toInt(bool *ok)] in base 10, a function of the Qt library: white
    space around the number is ignored, one sign is accepted, at least one
    digit is required, nothing else may follow, and the value has to fit an
    [int].  The pair is the returned integer and the flag stored through
    [ok]; a failed conversion returns 0. *)
Definition QString_toInt (s : QString) : Z * bool :=
  let t := trimmed s in
  let '(neg, ds) :=
    match t with
    | c :: r =>
        if c =? char "-" then (true, r)
        else if c =? char "+" then (false, r)
        else (false, t)
    | [] => (false, [])
    end in
  match ds with
  | [] => (0, false)
  | _ :: _ =>
      match decimal 0 ds with
      | Some v =>
          let v := if neg then - v else v in
          if (INT_MIN <=? v) && (v <=? INT_MAX) then (v, true) else (0, false)
      | None => (0, false)
      end
  end.

(** The decimal digits of a non-negative number below [10 ^ fuel]. *)
Fixpoint digits_of (fuel : nat) (n : Z) (acc : list Z) : list Z :=
  match fuel with
  | O => acc
  | S f =>
      let acc := (0x30 + n mod 10) :: acc in
      if n / 10 =? 0 then acc else digits_of f (n / 10) acc
  end.

(** [QString::number(int)]: the decimal form, with a minus sign for a
    negative number. *)
Definition QString_number (n : Z) : QString :=
  if n <? 0 then char "-" :: digits_of 11 (- n) [] else digits_of 11 n [].

(** [QString::arg(int)] for a format holding the place marker [%1]: every
    occurrence of the marker is replaced by the number. *)
Fixpoint QString_arg (fmt : QString) (n : Z) : QString :=
  match fmt with
  | c1 :: ((c2 :: r) as tl) =>
      if (c1 =? char "%") && (c2 =? char "1")
      then QString_number n ++ QString_arg r n
      else c1 :: QString_arg tl n
  | _ => fmt
  end.

(** ** Tmux identifiers *)

(** [parseTmuxId<C>(lexBuffer, ok)].  The argument [ok] tells whether the
    pointer is non-null.  The result is the returned [int] and the flag
    written through [ok]: [None] in the first component is the local [ret]
    returned without ever having been assigned, [None] in the second means
    that nothing was written. *)
Definition parseTmuxId (C : Z) (lexBuffer : list Z) (ok : bool)
  : option Z * option bool :=
  if Nat.eqb (length lexBuffer) 2 && (nth 0 lexBuffer 0 =? C)
     && (nth 1 lexBuffer 0 =? char "*")
  then (Some (-1), if ok then Some true else None)
  else if Nat.leb 2 (length lexBuffer) && (nth 0 lexBuffer 0 =? C)
  then
    let str := fromUcs4 (skipn 1 lexBuffer) in
    let '(v, b) := QString_toInt str in
    (Some v, if ok then Some b else None)
  else if ok then (Some (-2), Some false)
  else (None, None).

Definition parseTmuxSessionId (lexBuffer : list Z) (ok : bool) :=
  parseTmuxId (char "$") lexBuffer ok.

Definition parseTmuxWindowId (lexBuffer : list Z) (ok : bool) :=
  parseTmuxId (char "@") lexBuffer ok.

Definition parseTmuxPaneId (lexBuffer : list Z) (ok : bool) :=
  parseTmuxId (char "%") lexBuffer ok.

(** [QString::toULongLong(bool *ok)] in base 10, a function of the Qt
    library: as [QString_toInt], without a minus sign and with the range of
    [unsigned long long]. *)
Definition QString_toULongLong (s : QString) : Z * bool :=
  let t := trimmed s in
  let ds := match t with
            | c :: r => if c =? char "+" then r else t
            | [] => []
            end in
  match ds with
  | [] => (0, false)
  | _ :: _ =>
      match decimal 0 ds with
      | Some v => if v <? 2 ^ 64 then (v, true) else (0, false)
      | None => (0, false)
      end
  end.

(** ** Notifications

    [push_char] consumes the rest of a notification line one code point at a
    time and [execute] hands the parsed arguments to a [receive...] member of
    the controller; the members that are only declared in the header are kept
    as the call itself. *)

Inductive ServerCall : Type :=
| receiveOutput (pane : option Z) (data : list Z)
| receiveExtendedOutput (pane : option Z) (age : Z) (data : list Z)
| receiveUnlinkedWindowAdd (window : Z)
| receiveWindowAdd (window : Z).

Module TmuxOutputNotification.

Record t : Type := mk {
  arg : Z;
  octParse : Z;
  octParseChar : Z;
  lexBuffer : list Z;
  pane : option Z
}.

(** Modelled from the spec: [makeNotification], which constructs the object,
    is declared in the header and defined elsewhere.  The object is
    constructed when its [%...] prefix is recognised; the struct has no
    constructor, so its argument index and integer accumulators start at
    zero and its buffer empty. *)
Definition init : t :=
  {| arg := 0; octParse := 0; octParseChar := 0; lexBuffer := []; pane := Some 0 |}.

Definition execute (n : t) : ServerCall := receiveOutput (pane n) (lexBuffer n).

Definition push_char (n : t) (cc : Z) : t :=
  if arg n =? 0 then
    if cc =? char " " then
      let '(ret, _) := parseTmuxPaneId (lexBuffer n) true in
      {| arg := 1; octParse := octParse n; octParseChar := octParseChar n;
         lexBuffer := []; pane := ret |}
    else
      {| arg := arg n; octParse := octParse n; octParseChar := octParseChar n;
         lexBuffer := lexBuffer n ++ [cc]; pane := pane n |}
  else
    if cc =? char "\" then
      {| arg := arg n; octParse := 1; octParseChar := octParseChar n;
         lexBuffer := lexBuffer n; pane := pane n |}
    else if (0 <? octParse n) && (octParse n <? 4) then
      if (0x30 <=? cc) && (cc <=? 0x39) then
        let c := wrap_uint (octParseChar n * 8 + (cc - 0x30)) in
        let p := octParse n + 1 in
        if p =? 4 then
          {| arg := arg n; octParse := 0; octParseChar := 0;
             lexBuffer := lexBuffer n ++ [c]; pane := pane n |}
        else
          {| arg := arg n; octParse := p; octParseChar := c;
             lexBuffer := lexBuffer n; pane := pane n |}
      else
        {| arg := arg n; octParse := 0; octParseChar := 0;
           lexBuffer := (lexBuffer n ++ [octParseChar n]) ++ [cc]; pane := pane n |}
    else
      {| arg := arg n; octParse := octParse n; octParseChar := octParseChar n;
         lexBuffer := lexBuffer n ++ [cc]; pane := pane n |}.

Definition push_chars (n : t) (line : list Z) : t := fold_left push_char line n.

End TmuxOutputNotification.

Module TmuxExtendedOutputNotification.

Record t : Type := mk {
  arg : Z;
  octParse : Z;
  octParseChar : Z;
  lexBuffer : list Z;
  pane : option Z;
  age : Z
}.

(** Modelled from the spec: [makeNotification], which constructs the object,
    is declared in the header and defined elsewhere.  The object is
    constructed when its [%...] prefix is recognised; the struct has no
    constructor, so its argument index and integer accumulators start at
    zero and its buffer empty. *)
Definition init : t :=
  {| arg := 0; octParse := 0; octParseChar := 0; lexBuffer := [];
     pane := Some 0; age := 0 |}.

Definition execute (n : t) : ServerCall :=
  receiveExtendedOutput (pane n) (age n) (lexBuffer n).

Definition push_char (n : t) (cc : Z) : t :=
  if (arg n =? 0) && (cc =? char " ") then
    let '(ret, _) := parseTmuxPaneId (lexBuffer n) true in
    {| arg := arg n + 1; octParse := octParse n; octParseChar := octParseChar n;
       lexBuffer := []; pane := ret; age := age n |}
  else if (arg n =? 1) && (cc =? char " ") then
    let str := fromUcs4 (lexBuffer n) in
    let '(v, _) := QString_toULongLong str in
    {| arg := arg n + 1; octParse := octParse n; octParseChar := octParseChar n;
       lexBuffer := []; pane := pane n; age := v |}
  else if (arg n =? 2) && (cc =? char " ") then
    if Nat.eqb (length (lexBuffer n)) 1 && (nth 0 (lexBuffer n) 0 =? char ":") then
      {| arg := arg n + 1; octParse := octParse n; octParseChar := octParseChar n;
         lexBuffer := []; pane := pane n; age := age n |}
    else
      {| arg := arg n; octParse := octParse n; octParseChar := octParseChar n;
         lexBuffer := []; pane := pane n; age := age n |}
  else if arg n <? 2 then
    {| arg := arg n; octParse := octParse n; octParseChar := octParseChar n;
       lexBuffer := lexBuffer n ++ [cc]; pane := pane n; age := age n |}
  else if arg n =? 3 then
    if cc =? char "\" then
      {| arg := arg n; octParse := 1; octParseChar := octParseChar n;
         lexBuffer := lexBuffer n; pane := pane n; age := age n |}
    else if (0 <? octParse n) && (octParse n <? 4) then
      if (0x30 <=? cc) && (cc <=? 0x39) then
        let c := wrap_uint (octParseChar n * 8 + (cc - 0x30)) in
        let p := octParse n + 1 in
        if p =? 4 then
          {| arg := arg n; octParse := 0; octParseChar := 0;
             lexBuffer := lexBuffer n ++ [c]; pane := pane n; age := age n |}
        else
          {| arg := arg n; octParse := p; octParseChar := c;
             lexBuffer := lexBuffer n; pane := pane n; age := age n |}
      else
        {| arg := arg n; octParse := 0; octParseChar := 0;
           lexBuffer := (lexBuffer n ++ [octParseChar n]) ++ [cc];
           pane := pane n; age := age n |}
    else
      {| arg := arg n; octParse := octParse n; octParseChar := octParseChar n;
         lexBuffer := lexBuffer n ++ [cc]; pane := pane n; age := age n |}
  else n.

Definition push_chars (n : t) (line : list Z) : t := fold_left push_char line n.

End TmuxExtendedOutputNotification.

Module TmuxUnlinkedWindowAddNotification.

Record t : Type := mk { arg : Z; window : Z }.

(** Modelled from the spec: [makeNotification], which constructs the object,
    is declared in the header and defined elsewhere.  The object is
    constructed when its [%...] prefix is recognised; the struct has no
    constructor, so its argument index and integer accumulators start at
    zero and its buffer empty. *)
Definition init : t := {| arg := 0; window := 0 |}.

Definition execute (n : t) : ServerCall := receiveUnlinkedWindowAdd (window n).

(** Two [if] statements in a row: the second one also runs for the ['@']
    that the first one has just accepted. *)
Definition push_char (n : t) (cc : Z) : t :=
  let n1 := if (arg n =? 0) && (cc =? char "@")
            then {| arg := 1; window := window n |} else n in
  if (arg n1 =? 1) && (0x30 <? cc) && (cc <=? 0x39) then
    {| arg := arg n1; window := wrap_int (window n1 * 10 + (cc - 0x30)) |}
  else
    {| arg := 2; window := -2 |}.

Definition push_chars (n : t) (line : list Z) : t := fold_left push_char line n.

End TmuxUnlinkedWindowAddNotification.

Module TmuxWindowAddNotification.

Record t : Type := mk { arg : Z; window : Z }.

(** Modelled from the spec: [makeNotification], which constructs the object,
    is declared in the header and defined elsewhere.  The object is
    constructed when its [%...] prefix is recognised; the struct has no
    constructor, so its argument index and integer accumulators start at
    zero and its buffer empty. *)
Definition init : t := {| arg := 0; window := 0 |}.

Definition execute (n : t) : ServerCall := receiveWindowAdd (window n).

Definition push_char (n : t) (cc : Z) : t :=
  if (arg n =? 0) && (cc =? char "@") then
    {| arg := 1; window := window n |}
  else if (arg n =? 1) && (0x30 <? cc) && (cc <=? 0x39) then
    {| arg := arg n; window := wrap_int (window n * 10 + (cc - 0x30)) |}
  else
    {| arg := 2; window := -2 |}.

Definition push_chars (n : t) (line : list Z) : t := fold_left push_char line n.

End TmuxWindowAddNotification.

(** ** Commands

    The two [std::function] members of a command are closures.  The ones the
    header itself creates are listed by name, with what they capture; any
    other one is a [clientHandler], of which only the call is observed. *)

Definition Response : Type := list (list Z).

(** [tmuxAttachHandler] is the free function of that name; [initHandler] is
    the closure [init] makes, which calls [updateSessions];
    [konsoleSizeHandler session] is the closure [receiveSessionChanged] makes,
    which captures [session]. *)
Inductive ResponseHandler : Type :=
| tmuxAttachHandler
| initHandler
| konsoleSizeHandler (session : Z)
| clientHandler (tag : nat).

(** The logging closure that the constructor of [TmuxCommand] installs when
    it is given no error handler captures [this], the address of the command
    under construction, and reads [m_command] through it when it runs.  The
    copy and move operations of [TmuxCommand] are the defaulted ones, so every
    copy of the command, the one in the slot and the ones in the queue
    included, carries the closure with the address of the object first
    constructed.  [Captured] is what a call of the closure finds at that
    address: the object, with its command text, or an object that has been
    destroyed. *)
Inductive Captured : Type :=
| alive (command : QString)
| destroyed.

(** [defaultErrorHandler this] is that logging closure. *)
Inductive ErrorHandler : Type :=
| defaultErrorHandler (this : Captured)
| clientErrorHandler (tag : nat).

(** Where the command under construction lives.  The header builds its own
    commands as temporaries of the expression that hands them to the queue or
    to [sendCommand] (the constructor of [TmuxServerManager], [init],
    [receiveSessionChanged]); a temporary is destroyed at the end of that
    expression, before any response can arrive.  A client may keep its
    command for as long as the controller holds a copy. *)
Inductive Storage : Type :=
| temporary
| kept.

Inductive Diagnostic : Type :=
| unhandledAttachData (response : Response)
| unexpectedCommandResponse (response : Response)
| unexpectedCommandError (response : Response)
| errorInResponseTo (command : QString) (response : Response)
| unexpectedKonsoleSizeCharacter (cc : Z) (line : list Z)
| invalidResponseState.

(** What the controller does to the outside: the signal [doSendCommand], the
    handlers it calls, and its [qDebug] lines. *)
Inductive Effect : Type :=
| doSendCommand (command : QString)
| responseHandlerCalled (command : QString) (h : ResponseHandler) (response : Response)
| errorHandlerCalled (command : QString) (h : ErrorHandler) (response : Response)
| nullSessionDereferenced (session : Z)
| qDebug (d : Diagnostic).

Module TmuxCommand.

Record t : Type := mk {
  m_command : QString;
  m_responseHandler : option ResponseHandler;
  m_errorHandler : option ErrorHandler
}.

(** [TmuxCommand()] *)
Definition default : t :=
  {| m_command := []; m_responseHandler := None; m_errorHandler := None |}.

(** [TmuxCommand(command, responseHandler = nullptr, errorHandler = nullptr)],
    constructing an object of the given storage: a missing error handler is
    replaced by the logging one, which captures the object. *)
Definition make (storage : Storage) (command : QString)
    (responseHandler : option ResponseHandler) (errorHandler : option ErrorHandler) : t :=
  {| m_command := command;
     m_responseHandler := responseHandler;
     m_errorHandler := match errorHandler with
                       | Some h => Some h
                       | None =>
                           Some (defaultErrorHandler
                                   match storage with
                                   | kept => alive command
                                   | temporary => destroyed
                                   end)
                       end |}.

Definition command (c : t) : QString := m_command c.

(** [operator bool] *)
Definition to_bool (c : t) : bool :=
  match m_responseHandler c, m_errorHandler c with
  | Some _, Some _ => true
  | _, _ => false
  end.

End TmuxCommand.

(** ** Sessions *)

(** Modelled from the spec: [TmuxSessionManager::setGuiWindowSize] is declared
    in the header and defined elsewhere; the session record of the spec is
    [{name, size}], and setting the size stores it. *)
Record TmuxSessionManager : Type := mkSession {
  m_name : QString;
  guiWindowSize : option (Z * Z)
}.

Definition setName (name : QString) (s : TmuxSessionManager) : TmuxSessionManager :=
  {| m_name := name; guiWindowSize := guiWindowSize s |}.

Definition setGuiWindowSize (w h : Z) (s : TmuxSessionManager) : TmuxSessionManager :=
  {| m_name := m_name s; guiWindowSize := Some (w, h) |}.

(** ** The controller *)

Module TmuxServerManager.

Record t : Type := mk {
  m_currentCommand : TmuxCommand.t;
  m_pendingCommands : list TmuxCommand.t;
  m_sessions : gmap Z TmuxSessionManager;
  m_activeSession : Z;
  m_initComplete : bool
}.

(** The constructor: nothing in flight, the attach command queued. *)
Definition new : t :=
  {| m_currentCommand := TmuxCommand.default;
     m_pendingCommands := [TmuxCommand.make temporary (lit "") (Some tmuxAttachHandler) None];
     m_sessions := ∅;
     m_activeSession := -1;
     m_initComplete := false |}.

Definition with_current (c : TmuxCommand.t) (m : t) : t :=
  {| m_currentCommand := c; m_pendingCommands := m_pendingCommands m;
     m_sessions := m_sessions m; m_activeSession := m_activeSession m;
     m_initComplete := m_initComplete m |}.

Definition with_pending (q : list TmuxCommand.t) (m : t) : t :=
  {| m_currentCommand := m_currentCommand m; m_pendingCommands := q;
     m_sessions := m_sessions m; m_activeSession := m_activeSession m;
     m_initComplete := m_initComplete m |}.

Definition with_sessions (s : gmap Z TmuxSessionManager) (m : t) : t :=
  {| m_currentCommand := m_currentCommand m; m_pendingCommands := m_pendingCommands m;
     m_sessions := s; m_activeSession := m_activeSession m;
     m_initComplete := m_initComplete m |}.

Definition with_activeSession (a : Z) (m : t) : t :=
  {| m_currentCommand := m_currentCommand m; m_pendingCommands := m_pendingCommands m;
     m_sessions := m_sessions m; m_activeSession := a;
     m_initComplete := m_initComplete m |}.

(** [sendCommand] *)
Definition sendCommand (m : t) (command : TmuxCommand.t) : t * list Effect :=
  if negb (TmuxCommand.to_bool (m_currentCommand m)) then
    (with_current command m, [doSendCommand (TmuxCommand.command command)])
  else
    (with_pending (m_pendingCommands m ++ [command]) m, []).

(** One step of the inner loop of [updateSessions], on the locals
    [(counter, i, session)]. *)
Definition scanSession (st : Z * Z * Z) (cc : Z) : Z * Z * Z :=
  let '(counter, i, session) := st in
  if (counter =? 0) && (cc =? char "$") then (counter + 1, i + 1, session)
  else if (counter =? 1) && (0x30 <=? cc) && (cc <=? 0x39) then
    (counter, i + 1, wrap_int (session * 10 + (cc - 0x30)))
  else if (counter =? 1) && (cc =? char " ") then (counter + 1, i + 1, session)
  else st.

(** The local vector [updatedSessions] at the end of [updateSessions] (with
    the pair pushed as one element). *)
Definition updatedSessions (response : Response) : list (Z * QString) :=
  fold_left
    (fun acc sessionString =>
       let '(_, i, session) := fold_left scanSession sessionString (0, 0, 0) in
       acc ++ [(session, fromUcs4 (skipn (Z.to_nat i) sessionString))])
    response [].

(** [updateSessions]: the vector it fills is a local of the function and goes
    out of scope at its end; no member is assigned. *)
Definition updateSessions (m : t) (response : Response) : t :=
  let _ := updatedSessions response in m.

(** The loop of the [@konsole_size] handler on the locals
    [(arg, width, height)]: [inl cc] is the early return at character [cc]. *)
Fixpoint scanKonsoleSize (line : list Z) (arg width height : Z) : Z + Z * Z :=
  match line with
  | [] => inr (width, height)
  | cc :: rest =>
      if (0x30 <=? cc) && (cc <=? 0x39) then
        if arg =? 0
        then scanKonsoleSize rest arg (wrap_int (width * 10 + (cc - 0x30))) height
        else scanKonsoleSize rest arg width (wrap_int (height * 10 + (cc - 0x30)))
      else if (arg =? 0) && (cc =? char ",") then
        scanKonsoleSize rest (arg + 1) width height
      else inl cc
  end.

(** The closure sent by [receiveSessionChanged]; it captures [session]. *)
Definition konsoleSize (session : Z) (m : t) (response : Response) : t * list Effect :=
  match response with
  | [line] =>
      match scanKonsoleSize line 0 0 0 with
      | inl cc => (m, [qDebug (unexpectedKonsoleSizeCharacter cc line)])
      | inr (width, height) =>
          match m_sessions m !! session with
          | Some s =>
              (with_sessions (<[session := setGuiWindowSize width height s]> (m_sessions m)) m, [])
          | None => (m, [nullSessionDereferenced session])
          end
      end
  | _ => (m, [])
  end.

(** Running a response handler against the controller. *)
Definition callResponseHandler (h : ResponseHandler) (m : t) (response : Response)
  : t * list Effect :=
  match h with
  | tmuxAttachHandler =>
      (m, match response with
          | [] => []
          | _ :: _ => [qDebug (unhandledAttachData response)]
          end)
  | initHandler => (updateSessions m response, [])
  | konsoleSizeHandler session => konsoleSize session m response
  | clientHandler _ => (m, [])
  end.

(** Running an error handler.  The logging closure prints the [m_command] of
    the object it has captured; when that object has been destroyed the read
    is a use after the end of its lifetime, and the behaviour of the program
    is undefined from there on: [None]. *)
Definition callErrorHandler (h : ErrorHandler) (response : Response)
  : option (list Effect) :=
  match h with
  | defaultErrorHandler (alive command) => Some [qDebug (errorInResponseTo command response)]
  | defaultErrorHandler destroyed => None
  | clientErrorHandler _ => Some []
  end.

(** [m_currentCommand.execute(response)]: call the response handler, then
    reset it. *)
Definition execute (m : t) (response : Response) : t * list Effect :=
  let c := m_currentCommand m in
  match TmuxCommand.m_responseHandler c with
  | Some h =>
      let '(m1, e) := callResponseHandler h m response in
      (with_current {| TmuxCommand.m_command := TmuxCommand.m_command c;
                       TmuxCommand.m_responseHandler := None;
                       TmuxCommand.m_errorHandler := TmuxCommand.m_errorHandler c |} m1,
       responseHandlerCalled (TmuxCommand.m_command c) h response :: e)
  | None => (m, [])
  end.

(** [m_currentCommand.executeError(response)]: call the error handler, then
    reset it.  [None] when the call of the handler is undefined. *)
Definition executeError (m : t) (response : Response) : option (t * list Effect) :=
  let c := m_currentCommand m in
  match TmuxCommand.m_errorHandler c with
  | Some h =>
      match callErrorHandler h response with
      | Some e =>
          Some (with_current
                  {| TmuxCommand.m_command := TmuxCommand.m_command c;
                     TmuxCommand.m_responseHandler := TmuxCommand.m_responseHandler c;
                     TmuxCommand.m_errorHandler := None |} m,
                errorHandlerCalled (TmuxCommand.m_command c) h response :: e)
      | None => None
      end
  | None => Some (m, [])
  end.

(** [receiveCommandError]; [None] when the behaviour is undefined. *)
Definition receiveCommandError (m : t) (response : Response) : option (t * list Effect) :=
  if TmuxCommand.to_bool (m_currentCommand m) then executeError m response
  else Some (m, [qDebug (unexpectedCommandError response)]).

(** [receiveCommandResponse] *)
Definition receiveCommandResponse (m : t) (response : Response) : t * list Effect :=
  if TmuxCommand.to_bool (m_currentCommand m) then
    let '(m1, e) := execute m response in
    match m_pendingCommands m1 with
    | next :: rest =>
        (with_current next (with_pending rest m1),
         e ++ [doSendCommand (TmuxCommand.command next)])
    | [] => (m1, e)
    end
  else (m, [qDebug (unexpectedCommandResponse response)]).

(** [init] *)
Definition init (m : t) : t * list Effect :=
  sendCommand m
    (TmuxCommand.make temporary (lit "ls -F '#{session_id} #{q:session_name}'")
       (Some initHandler) None).

(** [receiveSessionChanged] *)
Definition receiveSessionChanged (m : t) (session : Z) (name : QString)
  : t * list Effect :=
  let '(m1, e) :=
    match m_sessions m !! session with
    | Some s => (with_sessions (<[session := setName name s]> (m_sessions m)) m, [])
    | None =>
        let m0 := with_sessions (<[session := mkSession name None]> (m_sessions m)) m in
        sendCommand m0
          (TmuxCommand.make temporary
             (QString_arg (lit "show -v -q -t $%1 @konsole_size") (m_activeSession m0))
             (Some (konsoleSizeHandler session)) None)
    end in
  (with_activeSession session m1, e).

End TmuxServerManager.

Module TmuxResponseNotification.

Inductive State : Type := Begin | Response | End | Error | None.

Record t : Type := mk { state : State; commandResponse : list (list Z) }.

Definition execute (n : t) (m : TmuxServerManager.t)
  : option (t * (TmuxServerManager.t * list Effect)) :=
  match
    match state n with
    | End => Some (TmuxServerManager.receiveCommandResponse m (commandResponse n))
    | Error => TmuxServerManager.receiveCommandError m (commandResponse n)
    | _ => Some (m, [qDebug invalidResponseState])
    end
  with
  | Some r => Some ({| state := None; commandResponse := commandResponse n |}, r)
  | Datatypes.None => Datatypes.None
  end.

End TmuxResponseNotification.

(** ** Runs of the controller

    A run is a sequence of calls of the members of the controller.  A step
    whose behaviour is undefined has no result, and neither has a run with
    such a step. *)

Inductive Event : Type :=
| Send (command : TmuxCommand.t)
| EndOfResponse (response : Response)
| ErrorResponse (response : Response)
| Init
| SessionChanged (session : Z) (name : QString).

Definition step (m : TmuxServerManager.t) (ev : Event)
  : option (TmuxServerManager.t * list Effect) :=
  match ev with
  | Send c => Some (TmuxServerManager.sendCommand m c)
  | EndOfResponse r => Some (TmuxServerManager.receiveCommandResponse m r)
  | ErrorResponse r => TmuxServerManager.receiveCommandError m r
  | Init => Some (TmuxServerManager.init m)
  | SessionChanged session name => Some (TmuxServerManager.receiveSessionChanged m session name)
  end.

Fixpoint run (m : TmuxServerManager.t) (evs : list Event)
  : option (TmuxServerManager.t * list Effect) :=
  match evs with
  | [] => Some (m, [])
  | ev :: rest =>
      match step m ev with
      | Some (m1, e1) =>
          match run m1 rest with
          | Some (m2, e2) => Some (m2, e1 ++ e2)
          | None => None
          end
      | None => None
      end
  end.

(** The response handlers a run has called, oldest first. *)
Definition calledResponseHandlers (es : list Effect) : list ResponseHandler :=
  omap (fun e => match e with
                 | responseHandlerCalled _ h _ => Some h
                 | _ => None
                 end) es.

(** The commands a run has put on the outbound channel, oldest first. *)
Definition sentCommands (es : list Effect) : list QString :=
  omap (fun e => match e with
                 | doSendCommand c => Some c
                 | _ => None
                 end) es.

(** A command of a client of the controller, with a response handler of its
    own and the default error handler; the client keeps the object. *)
Definition clientCommand (n : nat) : TmuxCommand.t :=
  TmuxCommand.make kept (lit "cmd") (Some (clientHandler n)) None.

(** ** Further notifications

    The [receive...] members these notifications call are declared in the
    header only, except [receiveSessionChanged]; their calls are kept as
    they are made. *)

Inductive MemberCall : Type :=
| receiveClientSessionChanged (client : QString) (session : Z) (name : QString)
| receiveContinue (pane : Z)
| receiveLayoutChange (window : option Z)
    (windowLayout windowVisibleLayout layout : QString)
| receiveSubscriptionChanged (name : QString) (session window : option Z)
    (window_index : Z) (pane : option Z) (value : list Z)
| receiveUnlinkedWindowClose (window : Z)
| receiveUnlinkedWindowRenamed (window : Z)
| receiveWindowClose (window : Z)
| receiveWindowPaneChanged (window pane : Z).

Module TmuxClientSessionChangedNotification.

Record t : Type := mk {
  arg : Z;
  lexBuffer : list Z;
  client : QString;
  session : Z
}.

(** The constructor of the struct. *)
Definition new : t := {| arg := 0; lexBuffer := []; client := []; session := -2 |}.

Definition execute (n : t) : MemberCall :=
  receiveClientSessionChanged (client n) (session n) (fromUcs4 (lexBuffer n)).

Definition push_char (n : t) (cc : Z) : t :=
  if (cc =? char " ") && (arg n =? 0) then
    {| arg := arg n + 1; lexBuffer := []; client := fromUcs4 (lexBuffer n);
       session := session n |}
  else if (cc =? char " ") && (arg n =? 1) then
    let session :=
      match parseTmuxSessionId (lexBuffer n) true with
      | (Some ret, Some true) => ret
      | _ => -2
      end in
    {| arg := arg n + 1; lexBuffer := []; client := client n; session := session |}
  else
    {| arg := arg n; lexBuffer := lexBuffer n ++ [cc]; client := client n;
       session := session n |}.

Definition push_chars (n : t) (line : list Z) : t := fold_left push_char line n.

End TmuxClientSessionChangedNotification.

Module TmuxContinueNotification.

Record t : Type := mk { lexBuffer : list Z }.

(** Modelled from the spec: [makeNotification], which constructs the object,
    is declared in the header and defined elsewhere.  The object is
    constructed when its [%...] prefix is recognised; the struct has no
    constructor, so its argument index and integer accumulators start at
    zero and its buffers empty. *)
Definition init : t := {| lexBuffer := [] |}.

(** [execute]: the call it makes, if any (otherwise it only logs), and the
    notification with its buffer cleared. *)
Definition execute (n : t) : t * option MemberCall :=
  ({| lexBuffer := [] |},
   match parseTmuxPaneId (lexBuffer n) true with
   | (Some pane, Some true) => Some (receiveContinue pane)
   | _ => None
   end).

Definition push_char (n : t) (cc : Z) : t := {| lexBuffer := lexBuffer n ++ [cc] |}.

Definition push_chars (n : t) (line : list Z) : t := fold_left push_char line n.

End TmuxContinueNotification.

Module TmuxLayoutChangeNotification.

Record t : Type := mk {
  arg : Z;
  lexBuffer : list Z;
  window : option Z;
  windowLayout : QString;
  windowVisibleLayout : QString
}.

(** Modelled from the spec: [makeNotification], which constructs the object,
    is declared in the header and defined elsewhere.  The object is
    constructed when its [%...] prefix is recognised; the struct has no
    constructor, so its argument index and integer accumulators start at
    zero and its buffers empty. *)
Definition init : t :=
  {| arg := 0; lexBuffer := []; window := Some 0; windowLayout := [];
     windowVisibleLayout := [] |}.

Definition execute (n : t) : MemberCall :=
  receiveLayoutChange (window n) (windowLayout n) (windowVisibleLayout n)
    (fromUcs4 (lexBuffer n)).

(** The chain of tests has no final [else]: a character that is not an
    argument separator is dropped. *)
Definition push_char (n : t) (cc : Z) : t :=
  if (arg n =? 0) && (cc =? char " ") then
    let '(ret, _) := parseTmuxWindowId (lexBuffer n) true in
    {| arg := arg n + 1; lexBuffer := []; window := ret;
       windowLayout := windowLayout n; windowVisibleLayout := windowVisibleLayout n |}
  else if (arg n =? 1) && (cc =? char " ") then
    {| arg := arg n + 1; lexBuffer := []; window := window n;
       windowLayout := fromUcs4 (lexBuffer n);
       windowVisibleLayout := windowVisibleLayout n |}
  else if (arg n =? 2) && (cc =? char " ") then
    {| arg := arg n + 1; lexBuffer := []; window := window n;
       windowLayout := windowLayout n;
       windowVisibleLayout := fromUcs4 (lexBuffer n) |}
  else n.

Definition push_chars (n : t) (line : list Z) : t := fold_left push_char line n.

End TmuxLayoutChangeNotification.

Module TmuxSessionChangedNotification.

Record t : Type := mk {
  arg : Z;
  lexBuffer : list Z;
  session : option Z
}.

(** Modelled from the spec: [makeNotification], which constructs the object,
    is declared in the header and defined elsewhere.  The object is
    constructed when its [%...] prefix is recognised; the struct has no
    constructor, so its argument index and integer accumulators start at
    zero and its buffers empty. *)
Definition init : t := {| arg := 0; lexBuffer := []; session := Some 0 |}.

(** [execute] calls [receiveSessionChanged]; [None] stands for a call with
    an [int] that was never assigned. *)
Definition execute (n : t) (m : TmuxServerManager.t)
  : option (TmuxServerManager.t * list Effect) :=
  match session n with
  | Some session =>
      Some (TmuxServerManager.receiveSessionChanged m session (fromUcs4 (lexBuffer n)))
  | None => None
  end.

Definition push_char (n : t) (cc : Z) : t :=
  if (arg n =? 0) && (cc =? char " ") then
    let '(ret, _) := parseTmuxSessionId (lexBuffer n) true in
    {| arg := arg n + 1; lexBuffer := []; session := ret |}
  else
    {| arg := arg n; lexBuffer := lexBuffer n ++ [cc]; session := session n |}.

Definition push_chars (n : t) (line : list Z) : t := fold_left push_char line n.

End TmuxSessionChangedNotification.

Module TmuxSubscriptionChangedNotification.

Record t : Type := mk {
  arg : Z;
  lexBuffer : list Z;
  name : QString;
  session : option Z;
  window : option Z;
  window_index : Z;
  pane : option Z
}.

(** Modelled from the spec: [makeNotification], which constructs the object,
    is declared in the header and defined elsewhere.  The object is
    constructed when its [%...] prefix is recognised; the struct has no
    constructor, so its argument index and integer accumulators start at
    zero and its buffers empty. *)
Definition init : t :=
  {| arg := 0; lexBuffer := []; name := []; session := Some 0; window := Some 0;
     window_index := 0; pane := Some 0 |}.

Definition execute (n : t) : MemberCall :=
  receiveSubscriptionChanged (name n) (session n) (window n) (window_index n)
    (pane n) (lexBuffer n).

Definition push_char (n : t) (cc : Z) : t :=
  if (arg n =? 0) && (cc =? char " ") then
    {| arg := arg n + 1; lexBuffer := []; name := fromUcs4 (lexBuffer n);
       session := session n; window := window n; window_index := window_index n;
       pane := pane n |}
  else if (arg n =? 1) && (cc =? char " ") then
    let '(ret, _) := parseTmuxSessionId (lexBuffer n) true in
    {| arg := arg n + 1; lexBuffer := []; name := name n;
       session := ret; window := window n; window_index := window_index n;
       pane := pane n |}
  else if (arg n =? 2) && (cc =? char " ") then
    let '(ret, _) := parseTmuxWindowId (lexBuffer n) true in
    {| arg := arg n + 1; lexBuffer := []; name := name n;
       session := session n; window := ret; window_index := window_index n;
       pane := pane n |}
  else if (arg n =? 3) && (cc =? char " ") then
    let str := fromUcs4 (lexBuffer n) in
    let '(v, _) := QString_toInt str in
    {| arg := arg n + 1; lexBuffer := []; name := name n;
       session := session n; window := window n; window_index := v;
       pane := pane n |}
  else if (arg n =? 4) && (cc =? char " ") then
    let '(ret, _) := parseTmuxPaneId (lexBuffer n) true in
    {| arg := arg n + 1; lexBuffer := []; name := name n;
       session := session n; window := window n; window_index := window_index n;
       pane := ret |}
  else if (arg n =? 5) && (cc =? char " ") then
    if Nat.eqb (length (lexBuffer n)) 1 && (nth 0 (lexBuffer n) 0 =? char ":") then
      {| arg := arg n + 1; lexBuffer := []; name := name n;
         session := session n; window := window n; window_index := window_index n;
         pane := pane n |}
    else
      {| arg := arg n; lexBuffer := []; name := name n;
         session := session n; window := window n; window_index := window_index n;
         pane := pane n |}
  else
    {| arg := arg n; lexBuffer := lexBuffer n ++ [cc]; name := name n;
       session := session n; window := window n; window_index := window_index n;
       pane := pane n |}.

Definition push_chars (n : t) (line : list Z) : t := fold_left push_char line n.

End TmuxSubscriptionChangedNotification.

Module TmuxUnlinkedWindowCloseNotification.

Record t : Type := mk { arg : Z; window : Z }.

(** Modelled from the spec: [makeNotification], which constructs the object,
    is declared in the header and defined elsewhere.  The object is
    constructed when its [%...] prefix is recognised; the struct has no
    constructor, so its argument index and integer accumulators start at
    zero and its buffers empty. *)
Definition init : t := {| arg := 0; window := 0 |}.

Definition execute (n : t) : MemberCall := receiveUnlinkedWindowClose (window n).

Definition push_char (n : t) (cc : Z) : t :=
  if (arg n =? 0) && (cc =? char "@") then
    {| arg := 1; window := window n |}
  else if (arg n =? 1) && (0x30 <? cc) && (cc <=? 0x39) then
    {| arg := arg n; window := wrap_int (window n * 10 + (cc - 0x30)) |}
  else
    {| arg := 2; window := -2 |}.

Definition push_chars (n : t) (line : list Z) : t := fold_left push_char line n.

End TmuxUnlinkedWindowCloseNotification.

Module TmuxUnlinkedWindowRenamedNotification.

Record t : Type := mk { arg : Z; window : Z }.

(** Modelled from the spec: [makeNotification], which constructs the object,
    is declared in the header and defined elsewhere.  The object is
    constructed when its [%...] prefix is recognised; the struct has no
    constructor, so its argument index and integer accumulators start at
    zero and its buffers empty. *)
Definition init : t := {| arg := 0; window := 0 |}.

Definition execute (n : t) : MemberCall := receiveUnlinkedWindowRenamed (window n).

Definition push_char (n : t) (cc : Z) : t :=
  if (arg n =? 0) && (cc =? char "@") then
    {| arg := 1; window := window n |}
  else if (arg n =? 1) && (0x30 <? cc) && (cc <=? 0x39) then
    {| arg := arg n; window := wrap_int (window n * 10 + (cc - 0x30)) |}
  else
    {| arg := 2; window := -2 |}.

Definition push_chars (n : t) (line : list Z) : t := fold_left push_char line n.

End TmuxUnlinkedWindowRenamedNotification.

Module TmuxWindowCloseNotification.

Record t : Type := mk { arg : Z; window : Z }.

(** Modelled from the spec: [makeNotification], which constructs the object,
    is declared in the header and defined elsewhere.  The object is
    constructed when its [%...] prefix is recognised; the struct has no
    constructor, so its argument index and integer accumulators start at
    zero and its buffers empty. *)
Definition init : t := {| arg := 0; window := 0 |}.

Definition execute (n : t) : MemberCall := receiveWindowClose (window n).

Definition push_char (n : t) (cc : Z) : t :=
  if (arg n =? 0) && (cc =? char "@") then
    {| arg := 1; window := window n |}
  else if (arg n =? 1) && (0x30 <? cc) && (cc <=? 0x39) then
    {| arg := arg n; window := wrap_int (window n * 10 + (cc - 0x30)) |}
  else
    {| arg := 2; window := -2 |}.

Definition push_chars (n : t) (line : list Z) : t := fold_left push_char line n.

End TmuxWindowCloseNotification.

Module TmuxWindowPaneChangedNotification.

Record t : Type := mk { arg : Z; window : Z; pane : Z }.

(** Modelled from the spec: [makeNotification], which constructs the object,
    is declared in the header and defined elsewhere.  The object is
    constructed when its [%...] prefix is recognised; the struct has no
    constructor, so its argument index and integer accumulators start at
    zero and its buffers empty. *)
Definition init : t := {| arg := 0; window := 0; pane := 0 |}.

Definition execute (n : t) : MemberCall := receiveWindowPaneChanged (window n) (pane n).

Definition push_char (n : t) (cc : Z) : t :=
  if (arg n =? 0) && (cc =? char "@") then
    {| arg := 1; window := window n; pane := pane n |}
  else if (arg n =? 1) && (0x30 <? cc) && (cc <=? 0x39) then
    {| arg := arg n; window := wrap_int (window n * 10 + (cc - 0x30)); pane := pane n |}
  else if (arg n =? 1) && (cc =? char " ") then
    {| arg := 2; window := window n; pane := pane n |}
  else if (arg n =? 2) && (cc =? char "%") then
    {| arg := 3; window := window n; pane := pane n |}
  else if (arg n =? 3) && (0x30 <? cc) && (cc <=? 0x39) then
    {| arg := arg n; window := window n; pane := wrap_int (pane n * 10 + (cc - 0x30)) |}
  else
    {| arg := 4; window := -2; pane := pane n |}.

Definition push_chars (n : t) (line : list Z) : t := fold_left push_char line n.

End TmuxWindowPaneChangedNotification.

(** * Vocabulary of the statements *)

(** A decimal digit. *)
Definition digit (c : Z) : Prop := 0x30 <= c <= 0x39.

(** A decimal digit other than ['0']. *)
Definition nonzero_digit (c : Z) : Prop := 0x30 < c <= 0x39.

(** The number a run of decimal digits denotes. *)
Definition decimalValue (ds : list Z) : Z :=
  fold_left (fun acc c => acc * 10 + (c - 0x30)) ds 0.

(** The three octal digits of a byte, most significant first. *)
Definition octal3 (b : Z) : list Z :=
  [0x30 + b / 64; 0x30 + (b / 8) mod 8; 0x30 + b mod 8].

(** The escape state of the [%output] decoder is sound: it is outside an
    escape ([octParse] is 0) or inside one with at most two digits read, and
    outside an escape no digits are pending. *)
Definition decoder_invariant (n : TmuxOutputNotification.t) : Prop :=
  0 <= TmuxOutputNotification.octParse n <= 3
  /\ (TmuxOutputNotification.octParse n = 0 -> TmuxOutputNotification.octParseChar n = 0).

(** The two decoders agree on the escape state and on the buffer. *)
Definition same_decoder (e : TmuxExtendedOutputNotification.t)
    (o : TmuxOutputNotification.t) : Prop :=
  TmuxExtendedOutputNotification.octParse e = TmuxOutputNotification.octParse o
  /\ TmuxExtendedOutputNotification.octParseChar e = TmuxOutputNotification.octParseChar o
  /\ TmuxExtendedOutputNotification.lexBuffer e = TmuxOutputNotification.lexBuffer o.

(** [%extended-output] is still reading its first three arguments, and has
    stored nothing for the third. *)
Definition before_payload (e : TmuxExtendedOutputNotification.t) : Prop :=
  0 <= TmuxExtendedOutputNotification.arg e <= 2
  /\ (TmuxExtendedOutputNotification.arg e = 2 -> TmuxExtendedOutputNotification.lexBuffer e = []).

(** The command in flight, if any. *)
Definition inFlight (m : TmuxServerManager.t) : list TmuxCommand.t :=
  if TmuxCommand.to_bool (TmuxServerManager.m_currentCommand m)
  then [TmuxServerManager.m_currentCommand m] else [].

(** The commands an event list passes to [sendCommand], in order. *)
Definition sends (evs : list Event) : list TmuxCommand.t :=
  omap (fun ev => match ev with Send c => Some c | _ => None end) evs.

(** Events of a run without error responses: commands that carry both
    handlers, and successful responses. *)
Definition error_free (ev : Event) : Prop :=
  match ev with
  | Send c => TmuxCommand.to_bool c = true
  | EndOfResponse _ => True
  | _ => False
  end.

(** The order in which the controller will answer: the command in flight,
    the queue, then the commands still to be sent; with nothing in flight the
    first command sent goes ahead of the queue. *)
Definition serviceOrder (m : TmuxServerManager.t) (cs : list TmuxCommand.t)
  : list TmuxCommand.t :=
  if TmuxCommand.to_bool (TmuxServerManager.m_currentCommand m)
  then TmuxServerManager.m_currentCommand m :: TmuxServerManager.m_pendingCommands m ++ cs
  else match cs with
       | [] => []
       | c :: rest => c :: TmuxServerManager.m_pendingCommands m ++ rest
       end.

(** The response handlers of a list of commands. *)
Definition handlers (cs : list TmuxCommand.t) : list ResponseHandler :=
  omap TmuxCommand.m_responseHandler cs.

(** The follow-up command of [receiveSessionChanged]: the query names
    [target], the handler stores the answer in [session]. *)
Definition konsoleSizeQuery (target session : Z) : TmuxCommand.t :=
  TmuxCommand.make temporary
    (lit "show -v -q -t $" ++ QString_number target ++ lit " @konsole_size")
    (Some (konsoleSizeHandler session)) None.

(** A payload decoder of [%output] right after the pane id [%0], and one of
    [%extended-output] with its three arguments behind it. *)
Definition outputPayload : TmuxOutputNotification.t :=
  TmuxOutputNotification.push_chars TmuxOutputNotification.init (lit "%0 ").

Definition extendedOutputPayload : TmuxExtendedOutputNotification.t :=
  TmuxExtendedOutputNotification.mk 3 0 0 [] (Some 0) 0.

(** A piece of an escaped payload: a code point written as it is, or a byte
    written as a backslash and its three octal digits. *)
Inductive Piece : Type :=
| literal (c : Z)
| escaped (b : Z).

(** The characters of a piece on the wire. *)
Definition written (p : Piece) : list Z :=
  match p with
  | literal c => [c]
  | escaped b => char "\" :: octal3 b
  end.

(** The code point a piece stands for. *)
Definition denoted (p : Piece) : Z :=
  match p with
  | literal c => c
  | escaped b => b
  end.

(** A backslash is never written as it is, and only bytes are escaped. *)
Definition wellWritten (p : Piece) : Prop :=
  match p with
  | literal c => c <> char "\"
  | escaped b => 0 <= b <= 255
  end.

(** A text without argument separator. *)
Definition noSpace (text : list Z) : Prop := Forall (fun c => c <> char " ") text.

(** Whether a line holds an argument separator. *)
Definition hasSpace (line : list Z) : bool := existsb (fun c => c =? char " ") line.

(** The end of a response, successful or not. *)
Definition isResponse (ev : Event) : Prop :=
  match ev with
  | EndOfResponse _ | ErrorResponse _ => True
  | _ => False
  end.

(** ** Proof tactics *)

Ltac side_condition := first [assumption | simpl; first [assumption | lia]].

Ltac case_if :=
  match goal with
  | |- context [if ?b then _ else _] => destruct b eqn:?
  | |- context [let '(_, _) := ?p in _] => destruct p eqn:?
  end.

(** * Properties *)

(** ** Machine arithmetic *)

Lemma wrap_uint_small (z : Z) : 0 <= z < 4294967296 -> wrap_uint z = z.
Proof. intros H. unfold wrap_uint. now apply Z.mod_small. Qed.

Lemma wrap_int_small (z : Z) : INT_MIN <= z <= INT_MAX -> wrap_int z = z.
Proof.
  unfold wrap_int, INT_MIN, INT_MAX. intros H.
  rewrite Z.mod_small; lia.
Qed.

(** ** Decimal numbers and [QString::toInt] *)

Lemma isDigit_iff (c : Z) : isDigit c = true <-> digit c.
Proof. unfold isDigit, digit. lia. Qed.

(** Digit runs are recognised by computation. *)
Lemma digits_check (l : list Z) : forallb isDigit l = true -> Forall digit l.
Proof.
  induction l as [|c r IH]; cbn; [constructor|].
  intros H. apply andb_true_iff in H as [Hc Hr].
  constructor; [now apply isDigit_iff | now apply IH].
Qed.

Lemma nonzero_digits_check (l : list Z) :
  forallb (fun c => (0x30 <? c) && (c <=? 0x39)) l = true -> Forall nonzero_digit l.
Proof.
  induction l as [|c r IH]; cbn; [constructor|].
  intros H. apply andb_true_iff in H as [Hc Hr].
  constructor; [unfold nonzero_digit; lia | now apply IH].
Qed.

Lemma digit_not_space (c : Z) : digit c -> isSpace c = false.
Proof. unfold digit, isSpace. lia. Qed.

Lemma skipSpace_head (c : Z) (r : list Z) :
  isSpace c = false -> skipSpace (c :: r) = c :: r.
Proof. intros H. simpl. now rewrite H. Qed.

Lemma skipSpace_digits (ds : list Z) : Forall digit ds -> skipSpace ds = ds.
Proof.
  destruct 1 as [|c r Hc _]; [reflexivity|].
  apply skipSpace_head. now apply digit_not_space.
Qed.

Lemma trimmed_digits (ds : list Z) : Forall digit ds -> trimmed ds = ds.
Proof.
  intros H. unfold trimmed.
  rewrite (skipSpace_digits ds H).
  rewrite skipSpace_digits by now apply Forall_rev.
  apply rev_involutive.
Qed.

Lemma decimal_fold (ds : list Z) :
  Forall digit ds ->
  forall acc, decimal acc ds = Some (fold_left (fun a c => a * 10 + (c - 0x30)) ds acc).
Proof.
  induction 1 as [|c r Hc _ IH]; intros acc; simpl; [reflexivity|].
  apply isDigit_iff in Hc. rewrite Hc. apply IH.
Qed.

Lemma fold_decimal_nonneg (ds : list Z) :
  Forall digit ds ->
  forall acc, 0 <= acc -> 0 <= fold_left (fun a c => a * 10 + (c - 0x30)) ds acc.
Proof.
  induction 1 as [|c r Hc _ IH]; intros acc Hacc; simpl; [assumption|].
  apply IH. unfold digit in Hc. lia.
Qed.

Lemma decimalValue_nonneg (ds : list Z) : Forall digit ds -> 0 <= decimalValue ds.
Proof. intros H. apply fold_decimal_nonneg; [assumption | lia]. Qed.

(** [toInt] reads an unsigned run of digits as its decimal value, provided
    the value fits an [int]. *)
Lemma QString_toInt_digits (ds : list Z) :
  ds <> [] -> Forall digit ds -> decimalValue ds <= INT_MAX ->
  QString_toInt ds = (decimalValue ds, true).
Proof.
  intros Hne Hds Hmax. unfold QString_toInt.
  rewrite (trimmed_digits ds Hds).
  destruct ds as [|c r]; [congruence|].
  assert (Hc : digit c) by now inversion Hds.
  assert (Hminus : (c =? char "-") = false) by (unfold digit in Hc; vm_compute (char _); lia).
  assert (Hplus : (c =? char "+") = false) by (unfold digit in Hc; vm_compute (char _); lia).
  rewrite Hminus, Hplus.
  rewrite (decimal_fold (c :: r) Hds 0).
  fold (decimalValue (c :: r)).
  pose proof (decimalValue_nonneg (c :: r) Hds) as Hpos.
  assert (Hrange : (INT_MIN <=? decimalValue (c :: r)) && (decimalValue (c :: r) <=? INT_MAX) = true).
  { unfold INT_MIN, INT_MAX in *. lia. }
  now rewrite Hrange.
Qed.

(** ** [parseTmuxId] *)

Lemma parseTmuxId_wildcard (C : Z) (ok : bool) :
  parseTmuxId C [C; char "*"] ok = (Some (-1), if ok then Some true else None).
Proof.
  unfold parseTmuxId. cbn [length nth Nat.eqb].
  now rewrite !Z.eqb_refl.
Qed.

Lemma parseTmuxId_toInt (C : Z) (s : list Z) (ok : bool) :
  s <> [] -> s <> [char "*"] ->
  parseTmuxId C (C :: s) ok
  = (Some (fst (QString_toInt s)), if ok then Some (snd (QString_toInt s)) else None).
Proof.
  intros Hne Hstar. unfold parseTmuxId, fromUcs4.
  destruct s as [|c r]; [congruence|].
  cbn [length nth skipn Nat.eqb Nat.leb]. rewrite Z.eqb_refl.
  assert (H1 : Nat.eqb (length r) 0 && true && (c =? char "*") = false).
  { destruct r as [|c' r']; [|reflexivity]. cbn.
    apply Z.eqb_neq. intros ->. now apply Hstar. }
  rewrite H1. cbn [andb]. now destruct (QString_toInt (c :: r)).
Qed.

Lemma parseTmuxId_reject (C : Z) (buf : list Z) (ok : bool) :
  (length buf < 2)%nat \/ nth 0 buf 0 <> C ->
  parseTmuxId C buf ok = if ok then (Some (-2), Some false) else (None, None).
Proof.
  intros H. unfold parseTmuxId.
  assert (H1 : Nat.leb 2 (length buf) && (nth 0 buf 0 =? C) = false).
  { destruct H as [H|H].
    - apply andb_false_iff. left. apply Nat.leb_gt. lia.
    - apply andb_false_iff. right. now apply Z.eqb_neq. }
  assert (H2 : Nat.eqb (length buf) 2 && (nth 0 buf 0 =? C) && (nth 1 buf 0 =? char "*") = false).
  { destruct H as [H|H].
    - replace (Nat.eqb (length buf) 2) with false; [reflexivity|].
      symmetry. apply Nat.eqb_neq. lia.
    - apply Z.eqb_neq in H. rewrite H. now rewrite andb_false_r. }
  now rewrite H1, H2.
Qed.

(** C7 (as amended): [parseTmuxId<C>] with a non-null [ok] returns -1 and
    sets [ok] for the buffer [<C>*]; returns the decimal value and sets [ok]
    for [<C>] followed by one or more decimal digits whose value fits an
    [int]; returns -2 and clears [ok] for every buffer with fewer than two
    elements or another first element; and for every remaining buffer
    [<C>s] returns what [QString::toInt] makes of [s], with [ok] set to the
    verdict of that conversion. *)
Theorem parseTmuxId_cases (C : Z) (buf : list Z) :
  (buf = [C; char "*"] -> parseTmuxId C buf true = (Some (-1), Some true))
  /\ (forall ds, buf = C :: ds -> ds <> [] -> Forall digit ds ->
        decimalValue ds <= INT_MAX ->
        parseTmuxId C buf true = (Some (decimalValue ds), Some true))
  /\ ((length buf < 2)%nat \/ nth 0 buf 0 <> C ->
        parseTmuxId C buf true = (Some (-2), Some false))
  /\ (forall s, buf = C :: s -> s <> [] -> s <> [char "*"] ->
        parseTmuxId C buf true
        = (Some (fst (QString_toInt s)), Some (snd (QString_toInt s)))).
Proof.
  repeat split.
  - intros ->. apply parseTmuxId_wildcard.
  - intros ds -> Hne Hds Hmax.
    rewrite parseTmuxId_toInt; [|assumption|].
    + now rewrite QString_toInt_digits.
    + intros ->. inversion Hds as [|c r Hc _]; subst.
      unfold digit in Hc. vm_compute in Hc. destruct Hc as [Hc _]. now apply Hc.
  - intros H. now rewrite parseTmuxId_reject.
  - intros s -> Hne Hstar. now apply parseTmuxId_toInt.
Qed.

Lemma parseTmuxId_cases_witness :
  parseTmuxId (char "$") (lit "$12") true = (Some 12, Some true).
Proof.
  refine (proj1 (proj2 (parseTmuxId_cases (char "$") (lit "$12"))) (lit "12") eq_refl _ _ _).
  - discriminate.
  - now apply digits_check.
  - vm_compute; discriminate.
Defined.

(** C7 as stated does not hold: [$-1] is not the wildcard and yields -1 with
    [ok] set; [$+5] is neither form and is accepted; [$2147483648] is [$]
    followed by digits and is rejected. *)
Lemma parseTmuxId_signed_and_overflowing :
  parseTmuxId (char "$") (lit "$-1") true = (Some (-1), Some true)
  /\ lit "$-1" <> [char "$"; char "*"]
  /\ parseTmuxId (char "$") (lit "$+5") true = (Some 5, Some true)
  /\ parseTmuxId (char "$") (lit "$2147483648") true = (Some 0, Some false).
Proof. repeat split; try reflexivity. discriminate. Qed.

(** C10: with a null [ok], the rejecting branch leaves [ret] unassigned, and
    that is what the function returns. *)
Theorem parseTmuxId_null_ok_unassigned :
  parseTmuxId (char "$") [] false = (None, None)
  /\ parseTmuxId (char "$") (lit "$") false = (None, None)
  /\ parseTmuxId (char "$") (lit "@1") false = (None, None).
Proof. repeat split; reflexivity. Qed.

(** ** The payload of [%output] *)

Module OutputFacts.
Import TmuxOutputNotification.

Lemma push_chars_cons (n : t) (cc : Z) (line : list Z) :
  push_chars n (cc :: line) = push_chars (push_char n cc) line.
Proof. reflexivity. Qed.

Lemma push_chars_app (n : t) (l1 l2 : list Z) :
  push_chars n (l1 ++ l2) = push_chars (push_chars n l1) l2.
Proof. apply fold_left_app. Qed.

Lemma push_pane_char (n : t) (cc : Z) :
  arg n = 0 -> cc <> char " " ->
  push_char n cc
  = {| arg := 0; octParse := octParse n; octParseChar := octParseChar n;
       lexBuffer := lexBuffer n ++ [cc]; pane := pane n |}.
Proof.
  intros Ha Hc. unfold push_char. rewrite Ha. cbn [Z.eqb].
  apply Z.eqb_neq in Hc. now rewrite Hc.
Qed.

Lemma push_backslash (n : t) :
  arg n <> 0 ->
  push_char n (char "\")
  = {| arg := arg n; octParse := 1; octParseChar := octParseChar n;
       lexBuffer := lexBuffer n; pane := pane n |}.
Proof.
  intros Ha. unfold push_char. apply Z.eqb_neq in Ha. now rewrite Ha, Z.eqb_refl.
Qed.

Lemma push_escape_digit (n : t) (cc : Z) :
  arg n <> 0 -> 0 < octParse n < 3 -> digit cc ->
  push_char n cc
  = {| arg := arg n; octParse := octParse n + 1;
       octParseChar := wrap_uint (octParseChar n * 8 + (cc - 0x30));
       lexBuffer := lexBuffer n; pane := pane n |}.
Proof.
  intros Ha Hp Hc. unfold push_char, digit in *. apply Z.eqb_neq in Ha. rewrite Ha.
  replace (cc =? char "\") with false by (vm_compute (char _); lia).
  replace ((0 <? octParse n) && (octParse n <? 4)) with true by lia.
  replace ((0x30 <=? cc) && (cc <=? 0x39)) with true by lia.
  cbv zeta. replace (octParse n + 1 =? 4) with false by lia. reflexivity.
Qed.

Lemma push_escape_last_digit (n : t) (cc : Z) :
  arg n <> 0 -> octParse n = 3 -> digit cc ->
  push_char n cc
  = {| arg := arg n; octParse := 0; octParseChar := 0;
       lexBuffer := lexBuffer n ++ [wrap_uint (octParseChar n * 8 + (cc - 0x30))];
       pane := pane n |}.
Proof.
  intros Ha Hp Hc. unfold push_char, digit in *. apply Z.eqb_neq in Ha. rewrite Ha, Hp.
  replace (cc =? char "\") with false by (vm_compute (char _); lia).
  replace ((0x30 <=? cc) && (cc <=? 0x39)) with true by lia.
  reflexivity.
Qed.

(** Outside an escape every byte but the backslash is appended as it is. *)
Lemma push_plain (n : t) (cc : Z) :
  arg n <> 0 -> octParse n = 0 -> cc <> char "\" ->
  push_char n cc
  = {| arg := arg n; octParse := 0; octParseChar := octParseChar n;
       lexBuffer := lexBuffer n ++ [cc]; pane := pane n |}.
Proof.
  intros Ha Hp Hc. unfold push_char. apply Z.eqb_neq in Ha, Hc.
  now rewrite Ha, Hc, Hp.
Qed.

(** X10: inside an escape a byte that is neither a decimal digit nor a backslash
    ends the escape: the code point gathered so far and the byte itself are
    appended. *)
Lemma push_escape_abort (n : t) (cc : Z) :
  arg n <> 0 -> 0 < octParse n < 4 -> ~ digit cc -> cc <> char "\" ->
  push_char n cc
  = {| arg := arg n; octParse := 0; octParseChar := 0;
       lexBuffer := (lexBuffer n ++ [octParseChar n]) ++ [cc]; pane := pane n |}.
Proof.
  intros Ha Hp Hd Hc. unfold push_char, digit in *. apply Z.eqb_neq in Ha, Hc.
  rewrite Ha, Hc.
  replace ((0 <? octParse n) && (octParse n <? 4)) with true by lia.
  replace ((0x30 <=? cc) && (cc <=? 0x39)) with false by lia.
  reflexivity.
Qed.

Lemma push_escape_abort_witness :
  push_char (push_chars (push_chars init (lit "%0 ")) (lit "\1")) (char "a")
  = {| arg := 1; octParse := 0; octParseChar := 0;
       lexBuffer := [1; char "a"]; pane := Some 0 |}.
Proof.
  refine (push_escape_abort (push_chars (push_chars init (lit "%0 ")) (lit "\1")) (char "a")
            _ _ _ _).
  - vm_compute; discriminate.
  - vm_compute; split; reflexivity.
  - change (char "a") with 97; unfold digit; lia.
  - vm_compute; discriminate.
Defined.

(** A backslash and the three octal digits of a byte, read with no digits
    pending, append that byte and leave the decoder outside any escape. *)
Lemma push_octal_escape (n : t) (b : Z) :
  arg n <> 0 -> octParseChar n = 0 -> 0 <= b <= 255 ->
  push_chars n (char "\" :: octal3 b)
  = {| arg := arg n; octParse := 0; octParseChar := 0;
       lexBuffer := lexBuffer n ++ [b]; pane := pane n |}.
Proof.
  intros Ha Hc Hb. unfold octal3.
  assert (Hd : exists d2 d1 d0,
             b / 64 = d2 /\ (b / 8) mod 8 = d1 /\ b mod 8 = d0
             /\ 0 <= d2 <= 3 /\ 0 <= d1 <= 7 /\ 0 <= d0 <= 7
             /\ b = 64 * d2 + 8 * d1 + d0).
  { exists (b / 64), ((b / 8) mod 8), (b mod 8).
    repeat split; Z.to_euclidean_division_equations; lia. }
  destruct Hd as (d2 & d1 & d0 & -> & -> & -> & Hd2 & Hd1 & Hd0 & Hbd).
  assert (H2 : digit (0x30 + d2)) by (unfold digit; lia).
  assert (H1 : digit (0x30 + d1)) by (unfold digit; lia).
  assert (H0 : digit (0x30 + d0)) by (unfold digit; lia).
  rewrite push_chars_cons, push_backslash by assumption.
  rewrite push_chars_cons, push_escape_digit by side_condition.
  rewrite push_chars_cons, push_escape_digit by side_condition.
  rewrite push_chars_cons, push_escape_last_digit by side_condition.
  cbn. rewrite Hc.
  rewrite (wrap_uint_small (0 * 8 + (48 + d2 - 48))) by lia.
  rewrite (wrap_uint_small ((0 * 8 + (48 + d2 - 48)) * 8 + (48 + d1 - 48))) by lia.
  rewrite wrap_uint_small by lia.
  do 3 f_equal. lia.
Qed.

(** A backslash keeps the digits of an unfinished escape: read with the
    digits [octParseChar n] pending, a backslash and the three octal digits
    of a byte [b] append [octParseChar n * 512 + b]. *)
Lemma push_octal_escape_pending (n : t) (b : Z) :
  arg n <> 0 -> 0 <= octParseChar n < 8388608 -> 0 <= b <= 255 ->
  push_chars n (char "\" :: octal3 b)
  = {| arg := arg n; octParse := 0; octParseChar := 0;
       lexBuffer := lexBuffer n ++ [octParseChar n * 512 + b]; pane := pane n |}.
Proof.
  intros Ha Hc Hb. unfold octal3.
  assert (Hd : exists d2 d1 d0,
             b / 64 = d2 /\ (b / 8) mod 8 = d1 /\ b mod 8 = d0
             /\ 0 <= d2 <= 3 /\ 0 <= d1 <= 7 /\ 0 <= d0 <= 7
             /\ b = 64 * d2 + 8 * d1 + d0).
  { exists (b / 64), ((b / 8) mod 8), (b mod 8).
    repeat split; Z.to_euclidean_division_equations; lia. }
  destruct Hd as (d2 & d1 & d0 & -> & -> & -> & Hd2 & Hd1 & Hd0 & Hbd).
  assert (H2 : digit (0x30 + d2)) by (unfold digit; lia).
  assert (H1 : digit (0x30 + d1)) by (unfold digit; lia).
  assert (H0 : digit (0x30 + d0)) by (unfold digit; lia).
  rewrite push_chars_cons, push_backslash by assumption.
  rewrite push_chars_cons, push_escape_digit by side_condition.
  rewrite push_chars_cons, push_escape_digit by side_condition.
  rewrite push_chars_cons, push_escape_last_digit by side_condition.
  cbn. set (a := octParseChar n) in *.
  rewrite (wrap_uint_small (a * 8 + (48 + d2 - 48))) by lia.
  rewrite (wrap_uint_small ((a * 8 + (48 + d2 - 48)) * 8 + (48 + d1 - 48))) by lia.
  rewrite wrap_uint_small by lia.
  do 3 f_equal. lia.
Qed.

End OutputFacts.

(** C4: a backslash does not clear the digits of an unfinished escape, so
    the four characters of an escape do not always append the byte they
    name.  In the payload of pane [%0], after the unfinished escape [\1] the
    decoder is inside an escape with the digit 1 pending and nothing
    appended; the characters [\101] that follow append the code point 577,
    which is 1 * 512 + 65, where the byte is 65; the whole line [%0 \1\101]
    delivers the single code point 577. *)
Theorem escape_restart_keeps_pending_digits :
  (let n := TmuxOutputNotification.push_chars outputPayload (lit "\1") in
   TmuxOutputNotification.arg n = 1
   /\ TmuxOutputNotification.octParse n = 2
   /\ TmuxOutputNotification.octParseChar n = 1
   /\ TmuxOutputNotification.lexBuffer n = [])
  /\ octal3 65 = lit "101"
  /\ TmuxOutputNotification.execute
       (TmuxOutputNotification.push_chars
          (TmuxOutputNotification.push_chars outputPayload (lit "\1"))
          (char "\" :: octal3 65))
     = receiveOutput (Some 0) [577]
  /\ TmuxOutputNotification.execute
       (TmuxOutputNotification.push_chars TmuxOutputNotification.init (lit "%0 \1\101"))
     = receiveOutput (Some 0) [577].
Proof. repeat split; reflexivity. Qed.

(** X12: the line [%0 \<ooo>] of a [%output] notification, [ooo] being a byte in
    octal, delivers exactly that byte for pane 0. *)
Lemma output_line_round_trip (b : Z) :
  0 <= b <= 255 ->
  TmuxOutputNotification.execute
    (TmuxOutputNotification.push_chars TmuxOutputNotification.init
       (lit "%0 " ++ char "\" :: octal3 b))
  = receiveOutput (Some 0) [b].
Proof.
  intros Hb. rewrite OutputFacts.push_chars_app.
  fold outputPayload.
  rewrite OutputFacts.push_octal_escape; [reflexivity | | reflexivity | assumption].
  vm_compute. discriminate.
Qed.

Lemma output_line_round_trip_witness :
  TmuxOutputNotification.execute
    (TmuxOutputNotification.push_chars TmuxOutputNotification.init (lit "%0 \033"))
  = receiveOutput (Some 0) [27].
Proof.
  refine (output_line_round_trip 27 _). lia.
Defined.

Lemma decoder_invariant_step (n : TmuxOutputNotification.t) (cc : Z) :
  decoder_invariant n -> decoder_invariant (TmuxOutputNotification.push_char n cc).
Proof.
  unfold decoder_invariant, TmuxOutputNotification.push_char.
  intros [Hr Hz]. repeat case_if; cbn; split; try lia; intros; try lia; auto.
Qed.

(** X11: every state the [%output] decoder reaches from [init] satisfies
    [decoder_invariant]: [octParse] stays within 0..3, and no digits are
    pending while it is 0. *)
Lemma decoder_invariant_reachable (line : list Z) :
  decoder_invariant (TmuxOutputNotification.push_chars TmuxOutputNotification.init line).
Proof.
  unfold TmuxOutputNotification.push_chars.
  assert (H0 : decoder_invariant TmuxOutputNotification.init) by (split; cbn; [lia | reflexivity]).
  revert H0. generalize TmuxOutputNotification.init.
  induction line as [|cc rest IH]; intros n Hn; cbn; [assumption|].
  apply IH. now apply decoder_invariant_step.
Qed.

(** C5: the digits ['8'] and ['9'] do not end an escape.  After [\8] the
    decoder of [%output] is still inside the escape with nothing appended,
    [\189] is read as one escape, and the decoder of [%extended-output]
    behaves alike. *)
Theorem escape_takes_8_and_9_as_digits :
  (let n := TmuxOutputNotification.push_chars outputPayload (lit "\8") in
   TmuxOutputNotification.octParse n = 2
   /\ TmuxOutputNotification.octParseChar n = 8
   /\ TmuxOutputNotification.lexBuffer n = [])
  /\ TmuxOutputNotification.execute
       (TmuxOutputNotification.push_chars outputPayload (lit "\189"))
     = receiveOutput (Some 0) [137]
  /\ (let e := TmuxExtendedOutputNotification.push_chars extendedOutputPayload (lit "\8") in
      TmuxExtendedOutputNotification.octParse e = 2
      /\ TmuxExtendedOutputNotification.octParseChar e = 8
      /\ TmuxExtendedOutputNotification.lexBuffer e = [])
  /\ TmuxExtendedOutputNotification.execute
       (TmuxExtendedOutputNotification.push_chars extendedOutputPayload (lit "\189"))
     = receiveExtendedOutput (Some 0) 0 [137].
Proof. repeat split; reflexivity. Qed.

(** ** [%extended-output] against [%output] *)

(** The branch of [%extended-output] for [arg] 3 is the payload branch of
    [%output]: from agreeing escape states and buffers one character leads
    to agreeing ones. *)
Lemma same_decoder_step (e : TmuxExtendedOutputNotification.t)
    (o : TmuxOutputNotification.t) (cc : Z) :
  TmuxExtendedOutputNotification.arg e = 3 ->
  TmuxOutputNotification.arg o <> 0 ->
  same_decoder e o ->
  TmuxExtendedOutputNotification.arg (TmuxExtendedOutputNotification.push_char e cc) = 3
  /\ TmuxOutputNotification.arg (TmuxOutputNotification.push_char o cc) <> 0
  /\ same_decoder (TmuxExtendedOutputNotification.push_char e cc)
       (TmuxOutputNotification.push_char o cc).
Proof.
  destruct e as [ea ep ec eb epn eage], o as [oa op oc ob opn].
  unfold same_decoder. cbn. intros -> Ho (-> & -> & ->).
  unfold TmuxExtendedOutputNotification.push_char, TmuxOutputNotification.push_char.
  apply Z.eqb_neq in Ho as Ho'. cbn. rewrite Ho'.
  repeat case_if; cbn; auto.
Qed.

Lemma before_payload_step (e : TmuxExtendedOutputNotification.t) (cc : Z) :
  before_payload e -> before_payload (TmuxExtendedOutputNotification.push_char e cc).
Proof.
  unfold before_payload, TmuxExtendedOutputNotification.push_char.
  intros [Hr Hb].
  destruct (TmuxExtendedOutputNotification.arg e =? 2) eqn:E2.
  - apply Z.eqb_eq in E2. rewrite E2 in *. rewrite (Hb eq_refl). cbn.
    destruct (cc =? char " "); cbn; rewrite ?E2, ?(Hb eq_refl); split; (lia || auto).
  - apply Z.eqb_neq in E2.
    repeat case_if; cbn; split; try lia; intros; try lia; auto.
Qed.

(** X6: from [init], [%extended-output] never gets past its third argument:
    while [arg] is 2 no character is stored, so the buffer is never the
    single [:] that would let [arg] become 3. *)
Lemma extended_output_never_reaches_payload (line : list Z) :
  before_payload
    (TmuxExtendedOutputNotification.push_chars TmuxExtendedOutputNotification.init line).
Proof.
  unfold TmuxExtendedOutputNotification.push_chars.
  assert (H0 : before_payload TmuxExtendedOutputNotification.init)
    by (split; cbn; [lia | discriminate]).
  revert H0. generalize TmuxExtendedOutputNotification.init.
  induction line as [|cc rest IH]; intros n Hn; cbn; [assumption|].
  apply IH. now apply before_payload_step.
Qed.

(** C6: the payload of [%extended-output] is not decoded like the payload of
    [%output]: it is not decoded at all.  The line [%0 a\101b] of [%output]
    delivers the code points of [aAb] for pane 0; the line [%0 1 : a\101b]
    of [%extended-output] delivers pane 0, age 1 and an empty payload.  After
    [%0 1 : ] the argument index is still 2 and the buffer is empty: the [:]
    was not stored, so the test for it failed. *)
Theorem extended_output_payload_not_decoded :
  TmuxOutputNotification.execute
    (TmuxOutputNotification.push_chars TmuxOutputNotification.init (lit "%0 a\101b"))
  = receiveOutput (Some 0) [97; 65; 98]
  /\ TmuxExtendedOutputNotification.execute
       (TmuxExtendedOutputNotification.push_chars TmuxExtendedOutputNotification.init
          (lit "%0 1 : a\101b"))
     = receiveExtendedOutput (Some 0) 1 []
  /\ (let e := TmuxExtendedOutputNotification.push_chars
                 TmuxExtendedOutputNotification.init (lit "%0 1 : ") in
      TmuxExtendedOutputNotification.arg e = 2
      /\ TmuxExtendedOutputNotification.lexBuffer e = []).
Proof. repeat split; reflexivity. Qed.

(** ** Window identifiers *)

(** C8: a window id holding the digit ['0'] is not delivered.  [%window-add]
    hands -2 to the controller for [@10] and for [@0], and
    [%unlinked-window-add] does so for every id, [@5] included, since it
    rejects the ['@'] it has just accepted. *)
Theorem window_id_with_zero_rejected :
  TmuxWindowAddNotification.execute
    (TmuxWindowAddNotification.push_chars TmuxWindowAddNotification.init (lit "@10"))
  = receiveWindowAdd (-2)
  /\ TmuxWindowAddNotification.execute
       (TmuxWindowAddNotification.push_chars TmuxWindowAddNotification.init (lit "@0"))
     = receiveWindowAdd (-2)
  /\ TmuxUnlinkedWindowAddNotification.execute
       (TmuxUnlinkedWindowAddNotification.push_chars
          TmuxUnlinkedWindowAddNotification.init (lit "@10"))
     = receiveUnlinkedWindowAdd (-2)
  /\ TmuxUnlinkedWindowAddNotification.execute
       (TmuxUnlinkedWindowAddNotification.push_chars
          TmuxUnlinkedWindowAddNotification.init (lit "@5"))
     = receiveUnlinkedWindowAdd (-2).
Proof. repeat split; reflexivity. Qed.

Lemma fold_decimal_ge (ds : list Z) :
  Forall digit ds ->
  forall acc, 0 <= acc -> acc <= fold_left (fun a c => a * 10 + (c - 0x30)) ds acc.
Proof.
  induction 1 as [|c r Hc _ IH]; intros acc Hacc; cbn [fold_left]; [lia|].
  unfold digit in Hc.
  transitivity (acc * 10 + (c - 0x30)); [lia|]. apply IH. lia.
Qed.

Lemma window_add_digits (ds : list Z) :
  Forall nonzero_digit ds ->
  forall w, 0 <= w ->
  fold_left (fun a c => a * 10 + (c - 0x30)) ds w <= INT_MAX ->
  TmuxWindowAddNotification.push_chars (TmuxWindowAddNotification.mk 1 w) ds
  = TmuxWindowAddNotification.mk 1 (fold_left (fun a c => a * 10 + (c - 0x30)) ds w).
Proof.
  induction 1 as [|c r Hc Hr IH]; intros w Hw Hmax; [reflexivity|].
  assert (Hdr : Forall digit r).
  { eapply Forall_impl; [exact Hr|]. unfold nonzero_digit, digit. intros; lia. }
  cbn [fold_left] in Hmax.
  unfold nonzero_digit in Hc.
  pose proof (fold_decimal_ge r Hdr (w * 10 + (c - 0x30)) ltac:(lia)) as Hge.
  unfold TmuxWindowAddNotification.push_chars in *. cbn [fold_left].
  unfold TmuxWindowAddNotification.push_char at 2. cbn.
  replace ((0x30 <? c) && (c <=? 0x39)) with true by lia. cbn.
  rewrite wrap_int_small by (unfold INT_MIN, INT_MAX in *; lia).
  apply IH; [lia | assumption].
Qed.

(** X7: a window id written with the digits 1 to 9 only is delivered by
    [%window-add] as its decimal value. *)
Lemma window_add_without_zero (ds : list Z) :
  Forall nonzero_digit ds -> decimalValue ds <= INT_MAX ->
  TmuxWindowAddNotification.execute
    (TmuxWindowAddNotification.push_chars TmuxWindowAddNotification.init (char "@" :: ds))
  = receiveWindowAdd (decimalValue ds).
Proof.
  intros Hds Hmax.
  change (TmuxWindowAddNotification.push_chars TmuxWindowAddNotification.init (char "@" :: ds))
    with (TmuxWindowAddNotification.push_chars (TmuxWindowAddNotification.mk 1 0) ds).
  rewrite window_add_digits by (assumption || lia). reflexivity.
Qed.

Lemma window_add_without_zero_witness :
  TmuxWindowAddNotification.execute
    (TmuxWindowAddNotification.push_chars TmuxWindowAddNotification.init (lit "@12"))
  = receiveWindowAdd 12.
Proof.
  refine (window_add_without_zero (lit "12") _ _).
  - now apply nonzero_digits_check.
  - vm_compute; discriminate.
Defined.

Lemma window_add_rejected_stays (line : list Z) :
  TmuxWindowAddNotification.push_chars (TmuxWindowAddNotification.mk 2 (-2)) line
  = TmuxWindowAddNotification.mk 2 (-2).
Proof. induction line as [|c r IH]; [reflexivity | exact IH]. Qed.

Lemma window_add_zero_after_at (ds : list Z) :
  In (char "0") ds ->
  forall w,
  TmuxWindowAddNotification.push_chars (TmuxWindowAddNotification.mk 1 w) ds
  = TmuxWindowAddNotification.mk 2 (-2).
Proof.
  induction ds as [|c r IH]; intros Hin w; [destruct Hin|].
  unfold TmuxWindowAddNotification.push_chars. cbn [fold_left].
  unfold TmuxWindowAddNotification.push_char at 2. cbn.
  destruct ((0x30 <? c) && (c <=? 0x39)) eqn:Hd; cbn.
  - destruct Hin as [Hc|Hin]; [subst c; vm_compute in Hd; discriminate|].
    now apply IH.
  - apply window_add_rejected_stays.
Qed.

(** X8: whatever the other digits, a window id with a ['0'] among its digits
    makes [%window-add] deliver -2. *)
Lemma window_add_with_zero (ds : list Z) :
  In (char "0") ds ->
  TmuxWindowAddNotification.execute
    (TmuxWindowAddNotification.push_chars TmuxWindowAddNotification.init (char "@" :: ds))
  = receiveWindowAdd (-2).
Proof.
  intros Hin.
  change (TmuxWindowAddNotification.push_chars TmuxWindowAddNotification.init (char "@" :: ds))
    with (TmuxWindowAddNotification.push_chars (TmuxWindowAddNotification.mk 1 0) ds).
  now rewrite window_add_zero_after_at.
Qed.

Lemma window_add_with_zero_witness :
  TmuxWindowAddNotification.execute
    (TmuxWindowAddNotification.push_chars TmuxWindowAddNotification.init (lit "@205"))
  = receiveWindowAdd (-2).
Proof.
  refine (window_add_with_zero (lit "205") _).
  right; left; reflexivity.
Defined.

Lemma unlinked_window_add_rejected_stays (line : list Z) :
  TmuxUnlinkedWindowAddNotification.push_chars
    (TmuxUnlinkedWindowAddNotification.mk 2 (-2)) line
  = TmuxUnlinkedWindowAddNotification.mk 2 (-2).
Proof. induction line as [|c r IH]; [reflexivity | exact IH]. Qed.

(** X9: [%unlinked-window-add] delivers -2 for every line that is not empty:
    the first character is rejected, the ['@'] included. *)
Lemma unlinked_window_add_always_rejects (line : list Z) :
  line <> [] ->
  TmuxUnlinkedWindowAddNotification.execute
    (TmuxUnlinkedWindowAddNotification.push_chars
       TmuxUnlinkedWindowAddNotification.init line)
  = receiveUnlinkedWindowAdd (-2).
Proof.
  destruct line as [|c r]; [congruence|]. intros _.
  unfold TmuxUnlinkedWindowAddNotification.push_chars. cbn [fold_left].
  assert (H1 : TmuxUnlinkedWindowAddNotification.push_char
                 TmuxUnlinkedWindowAddNotification.init c
               = TmuxUnlinkedWindowAddNotification.mk 2 (-2)).
  { unfold TmuxUnlinkedWindowAddNotification.push_char,
      TmuxUnlinkedWindowAddNotification.init. cbn.
    destruct (c =? char "@") eqn:Hc; cbn; [|reflexivity].
    apply Z.eqb_eq in Hc. subst c. reflexivity. }
  rewrite H1.
  change (fold_left TmuxUnlinkedWindowAddNotification.push_char r
            (TmuxUnlinkedWindowAddNotification.mk 2 (-2)))
    with (TmuxUnlinkedWindowAddNotification.push_chars
            (TmuxUnlinkedWindowAddNotification.mk 2 (-2)) r).
  now rewrite unlinked_window_add_rejected_stays.
Qed.

Lemma unlinked_window_add_always_rejects_witness :
  TmuxUnlinkedWindowAddNotification.execute
    (TmuxUnlinkedWindowAddNotification.push_chars
       TmuxUnlinkedWindowAddNotification.init (lit "@7"))
  = receiveUnlinkedWindowAdd (-2).
Proof.
  refine (unlinked_window_add_always_rejects (lit "@7") _).
  discriminate.
Defined.

(** ** The controller: runs *)

(** C1: an error response empties the in-flight slot without taking the next
    command from the queue, so the command sent next overtakes the queued
    ones: with [c1], [c2] sent, an error for [c1], [c3] sent and three
    responses, the response handler of [c3] runs before the one of [c2]. *)
Theorem error_response_breaks_fifo :
  exists m es,
    run TmuxServerManager.new
      [Send (clientCommand 1); Send (clientCommand 2); ErrorResponse [];
       Send (clientCommand 3);
       EndOfResponse []; EndOfResponse []; EndOfResponse []]
    = Some (m, es)
    /\ calledResponseHandlers es = [clientHandler 3; tmuxAttachHandler; clientHandler 2].
Proof. eexists _, _. split; reflexivity. Qed.

(** C2: the follow-up command names the session that was active before the
    notification, not the session of the notification.  On a fresh
    controller [%session-changed $0 default] sends the query for [$-1]; a
    later [%session-changed $3 work] queues the query for [$0]. *)
Theorem session_changed_queries_previous_session :
  (let r := TmuxServerManager.receiveSessionChanged TmuxServerManager.new 0 (lit "default") in
   sentCommands (snd r) = [lit "show -v -q -t $-1 @konsole_size"]
   /\ TmuxServerManager.m_sessions (fst r) !! 0 = Some (mkSession (lit "default") None)
   /\ TmuxServerManager.m_activeSession (fst r) = 0)
  /\ (exists m es,
        run TmuxServerManager.new
          [SessionChanged 0 (lit "default"); SessionChanged 3 (lit "work")]
        = Some (m, es)
        /\ List.map TmuxCommand.command (TmuxServerManager.m_pendingCommands m)
           = [lit ""; lit "show -v -q -t $0 @konsole_size"]
        /\ TmuxServerManager.m_activeSession m = 3).
Proof.
  split; [repeat split; reflexivity|].
  eexists _, _. repeat split; reflexivity.
Qed.

(** C3: with [c1] in flight and commands queued, an error response runs the
    error handler of [c1] on the body and empties the in-flight slot, but the
    queue keeps all its commands and nothing is sent. *)
Theorem error_response_does_not_advance_queue :
  exists m es0 m' es,
    run TmuxServerManager.new [Send (clientCommand 1); Send (clientCommand 2)] = Some (m, es0)
    /\ TmuxServerManager.receiveCommandError m [lit "unknown command"] = Some (m', es)
    /\ TmuxCommand.to_bool (TmuxServerManager.m_currentCommand m) = true
    /\ es = [errorHandlerCalled (lit "cmd") (defaultErrorHandler (alive (lit "cmd")))
               [lit "unknown command"];
             qDebug (errorInResponseTo (lit "cmd") [lit "unknown command"])]
    /\ TmuxCommand.to_bool (TmuxServerManager.m_currentCommand m') = false
    /\ TmuxServerManager.m_pendingCommands m'
       = [TmuxCommand.make temporary (lit "") (Some tmuxAttachHandler) None; clientCommand 2]
    /\ sentCommands es = [].
Proof. eexists _, _, _, _. repeat split; reflexivity. Qed.

(** C9: [init] sends the listing command, and its response is parsed, but
    the parsed pairs stay in a local of [updateSessions]: after the response
    [$0 default] the session table is still empty. *)
Theorem init_response_not_recorded :
  let r1 := TmuxServerManager.init TmuxServerManager.new in
  let r2 := TmuxServerManager.receiveCommandResponse (fst r1) [lit "$0 default"] in
  sentCommands (snd r1) = [lit "ls -F '#{session_id} #{q:session_name}'"]
  /\ calledResponseHandlers (snd r2) = [initHandler]
  /\ TmuxServerManager.updatedSessions [lit "$0 default"] = [(0, lit "default")]
  /\ TmuxServerManager.m_sessions (fst r2) !! 0 = None
  /\ TmuxServerManager.m_sessions (fst r2) = ∅.
Proof. repeat split; reflexivity. Qed.

(** ** The controller: the queue *)

(** At most one command is in flight. *)
Lemma at_most_one_in_flight (m : TmuxServerManager.t) : (length (inFlight m) <= 1)%nat.
Proof. unfold inFlight. destruct (TmuxCommand.to_bool _); cbn; lia. Qed.

(** A command sent while another one is in flight goes to the back of the
    queue, and nothing is put on the outbound channel. *)
Lemma sendCommand_in_flight (m : TmuxServerManager.t) (c : TmuxCommand.t) :
  TmuxCommand.to_bool (TmuxServerManager.m_currentCommand m) = true ->
  TmuxServerManager.sendCommand m c
  = (TmuxServerManager.with_pending (TmuxServerManager.m_pendingCommands m ++ [c]) m, []).
Proof. intros H. unfold TmuxServerManager.sendCommand. now rewrite H. Qed.

(** A command sent with nothing in flight becomes the command in flight and
    is put on the outbound channel. *)
Lemma sendCommand_idle (m : TmuxServerManager.t) (c : TmuxCommand.t) :
  TmuxCommand.to_bool (TmuxServerManager.m_currentCommand m) = false ->
  TmuxServerManager.sendCommand m c
  = (TmuxServerManager.with_current c m, [doSendCommand (TmuxCommand.command c)]).
Proof. intros H. unfold TmuxServerManager.sendCommand. now rewrite H. Qed.

Lemma to_bool_handlers (c : TmuxCommand.t) :
  TmuxCommand.to_bool c = true ->
  exists h e, TmuxCommand.m_responseHandler c = Some h
              /\ TmuxCommand.m_errorHandler c = Some e.
Proof.
  unfold TmuxCommand.to_bool.
  destruct (TmuxCommand.m_responseHandler c) as [h|], (TmuxCommand.m_errorHandler c) as [e|];
    try discriminate.
  intros _. now exists h, e.
Qed.

(** A response handler touches neither the slot nor the queue, and calls no
    other response handler. *)
Lemma callResponseHandler_frame (h : ResponseHandler) (m : TmuxServerManager.t)
    (response : Response) :
  let r := TmuxServerManager.callResponseHandler h m response in
  TmuxServerManager.m_currentCommand (fst r) = TmuxServerManager.m_currentCommand m
  /\ TmuxServerManager.m_pendingCommands (fst r) = TmuxServerManager.m_pendingCommands m
  /\ calledResponseHandlers (snd r) = []
  /\ sentCommands (snd r) = [].
Proof.
  destruct h as [| |session|tag]; cbn.
  - destruct response; cbn; auto.
  - auto.
  - unfold TmuxServerManager.konsoleSize.
    destruct response as [|line [|line' rest]]; cbn; auto.
    destruct (TmuxServerManager.scanKonsoleSize line 0 0 0) as [cc|[w hgt]]; cbn; auto.
    destruct (TmuxServerManager.m_sessions m !! session); cbn; auto.
  - auto.
Qed.

(** A successful response with a command in flight: its response handler is
    called with the body, then the head of the queue, if any, becomes the
    command in flight and is sent. *)
Lemma receiveCommandResponse_in_flight (m : TmuxServerManager.t) (response : Response) :
  TmuxCommand.to_bool (TmuxServerManager.m_currentCommand m) = true ->
  exists h,
    TmuxCommand.m_responseHandler (TmuxServerManager.m_currentCommand m) = Some h
    /\ let r := TmuxServerManager.receiveCommandResponse m response in
       calledResponseHandlers (snd r) = [h]
       /\ match TmuxServerManager.m_pendingCommands m with
          | next :: rest =>
              TmuxServerManager.m_currentCommand (fst r) = next
              /\ TmuxServerManager.m_pendingCommands (fst r) = rest
              /\ sentCommands (snd r) = [TmuxCommand.command next]
          | [] =>
              TmuxCommand.to_bool (TmuxServerManager.m_currentCommand (fst r)) = false
              /\ TmuxServerManager.m_pendingCommands (fst r) = []
              /\ sentCommands (snd r) = []
          end.
Proof.
  intros Hc. destruct (to_bool_handlers _ Hc) as (h & e & Hh & He).
  exists h. split; [assumption|].
  unfold TmuxServerManager.receiveCommandResponse, TmuxServerManager.execute.
  rewrite Hc. cbv zeta. rewrite Hh.
  pose proof (callResponseHandler_frame h m response) as (Fc & Fq & Fh & Fs).
  destruct (TmuxServerManager.callResponseHandler h m response) as [m1 e1].
  cbn in Fc, Fq, Fh, Fs. cbn [TmuxServerManager.m_pendingCommands TmuxServerManager.with_current].
  rewrite Fq.
  destruct (TmuxServerManager.m_pendingCommands m) as [|next rest]; cbn.
  - rewrite Fh, Fs, Fq. auto.
  - unfold calledResponseHandlers, sentCommands in *.
    rewrite !omap_app, Fh, Fs. cbn. auto.
Qed.

Lemma callErrorHandler_defined (e : ErrorHandler) (response : Response) :
  e <> defaultErrorHandler destroyed ->
  exists es,
    TmuxServerManager.callErrorHandler e response = Some es
    /\ sentCommands es = [] /\ calledResponseHandlers es = [].
Proof.
  intros He. destruct e as [[command|]|tag]; cbn; [| congruence |]; now eexists.
Qed.

(** What an error response leaves behind, when its behaviour is defined: the
    queue, the session table and the text in the slot are untouched, nothing
    is sent and no response handler is called. *)
Lemma receiveCommandError_defined (m m' : TmuxServerManager.t) (response : Response)
    (es : list Effect) :
  TmuxServerManager.receiveCommandError m response = Some (m', es) ->
  TmuxServerManager.m_pendingCommands m' = TmuxServerManager.m_pendingCommands m
  /\ TmuxServerManager.m_sessions m' = TmuxServerManager.m_sessions m
  /\ TmuxCommand.command (TmuxServerManager.m_currentCommand m')
     = TmuxCommand.command (TmuxServerManager.m_currentCommand m)
  /\ sentCommands es = []
  /\ calledResponseHandlers es = [].
Proof.
  unfold TmuxServerManager.receiveCommandError, TmuxServerManager.executeError.
  destruct (TmuxCommand.to_bool (TmuxServerManager.m_currentCommand m)).
  - cbv zeta.
    destruct (TmuxCommand.m_errorHandler (TmuxServerManager.m_currentCommand m))
      as [[[command|]|tag]|]; cbn; intros H; inversion H; subst; cbn; auto.
  - intros H; inversion H; subst; cbn; auto.
Qed.

(** X2: an error response with a command in flight.  When the error handler
    of the command is the logging closure of a command object that has been
    destroyed, the call reads that object and the behaviour is undefined.
    With any other error handler the handler is called with the body first
    and the slot becomes empty; the queue is left as it is and nothing is
    sent. *)
Lemma receiveCommandError_in_flight (m : TmuxServerManager.t) (response : Response) :
  TmuxCommand.to_bool (TmuxServerManager.m_currentCommand m) = true ->
  exists e,
    TmuxCommand.m_errorHandler (TmuxServerManager.m_currentCommand m) = Some e
    /\ (e = defaultErrorHandler destroyed ->
        TmuxServerManager.receiveCommandError m response = None)
    /\ (e <> defaultErrorHandler destroyed ->
        exists m' es,
          TmuxServerManager.receiveCommandError m response = Some (m', es)
          /\ head es
             = Some (errorHandlerCalled
                       (TmuxCommand.m_command (TmuxServerManager.m_currentCommand m)) e response)
          /\ TmuxCommand.to_bool (TmuxServerManager.m_currentCommand m') = false
          /\ TmuxServerManager.m_pendingCommands m' = TmuxServerManager.m_pendingCommands m
          /\ sentCommands es = []).
Proof.
  intros Hc. destruct (to_bool_handlers _ Hc) as (h & e & Hh & He).
  exists e. split; [assumption|].
  unfold TmuxServerManager.receiveCommandError, TmuxServerManager.executeError.
  rewrite Hc. cbv zeta. rewrite He, Hh. split.
  - now intros ->.
  - intros Hne. destruct (callErrorHandler_defined e response Hne) as (es & -> & Hs & _).
    eexists _, _. split; [reflexivity|]. cbn. unfold sentCommands in *. cbn. auto.
Qed.

Lemma receiveCommandError_in_flight_witness :
  let m := fst (TmuxServerManager.sendCommand
                  (fst (TmuxServerManager.sendCommand TmuxServerManager.new (clientCommand 1)))
                  (clientCommand 2)) in
  exists e,
    TmuxCommand.m_errorHandler (TmuxServerManager.m_currentCommand m) = Some e
    /\ (e = defaultErrorHandler destroyed ->
        TmuxServerManager.receiveCommandError m [lit "no"] = None)
    /\ (e <> defaultErrorHandler destroyed ->
        exists m' es,
          TmuxServerManager.receiveCommandError m [lit "no"] = Some (m', es)
          /\ head es
             = Some (errorHandlerCalled
                       (TmuxCommand.m_command (TmuxServerManager.m_currentCommand m)) e
                       [lit "no"])
          /\ TmuxCommand.to_bool (TmuxServerManager.m_currentCommand m') = false
          /\ TmuxServerManager.m_pendingCommands m' = TmuxServerManager.m_pendingCommands m
          /\ sentCommands es = []).
Proof.
  exact (receiveCommandError_in_flight
           (fst (TmuxServerManager.sendCommand
                   (fst (TmuxServerManager.sendCommand TmuxServerManager.new (clientCommand 1)))
                   (clientCommand 2)))
           [lit "no"] eq_refl).
Defined.

(** The commands the header builds itself are temporaries: an error response
    to the listing command of [init], to the attach command or to a size
    query of [receiveSessionChanged] is undefined. *)
Lemma error_response_to_own_command_undefined (r : Response) :
  run TmuxServerManager.new [Init; ErrorResponse r] = None
  /\ run TmuxServerManager.new [Send (clientCommand 1); EndOfResponse []; ErrorResponse r]
     = None
  /\ run TmuxServerManager.new [SessionChanged 0 (lit "a"); ErrorResponse r] = None.
Proof. repeat split; reflexivity. Qed.

(** A run with a first step: the step is defined, and so is the rest of the
    run from the state it leaves. *)
Lemma run_cons_inv (m m' : TmuxServerManager.t) (ev : Event) (rest : list Event)
    (es : list Effect) :
  run m (ev :: rest) = Some (m', es) ->
  exists m1 e1 e2,
    step m ev = Some (m1, e1) /\ run m1 rest = Some (m', e2) /\ es = e1 ++ e2.
Proof.
  cbn [run]. destruct (step m ev) as [[m1 e1]|]; [|discriminate].
  destruct (run m1 rest) as [[m2 e2]|] eqn:Hrest; [|discriminate].
  intros H; inversion H; subst. now exists m1, e1, e2.
Qed.

Lemma run_cons (m m1 m2 : TmuxServerManager.t) (ev : Event) (rest : list Event)
    (e1 e2 : list Effect) :
  step m ev = Some (m1, e1) -> run m1 rest = Some (m2, e2) ->
  run m (ev :: rest) = Some (m2, e1 ++ e2).
Proof. intros H1 H2. cbn [run]. now rewrite H1, H2. Qed.

(** A run without error responses is defined. *)
Lemma error_free_run_defined (evs : list Event) :
  Forall error_free evs -> forall m, exists m' es, run m evs = Some (m', es).
Proof.
  induction 1 as [|ev rest Hev _ IH]; intros m; [now eexists _, _|].
  assert (Hstep : exists m1 e1, step m ev = Some (m1, e1)).
  { destruct ev as [c|r|r| |s nm]; cbn in Hev; try contradiction; cbn [step].
    - destruct (TmuxServerManager.sendCommand m c) as [m1 e1]. now exists m1, e1.
    - destruct (TmuxServerManager.receiveCommandResponse m r) as [m1 e1]. now exists m1, e1. }
  destruct Hstep as (m1 & e1 & Hstep). destruct (IH m1) as (m' & es & Hrun).
  exists m', (e1 ++ es). now apply (run_cons m m1).
Qed.

(** Without error responses the response handlers run in service order: from
    any state whose queued commands all carry both handlers, the handlers
    called so far are an initial part of the handlers of [serviceOrder]. *)
Lemma fifo_without_errors (evs : list Event) :
  forall (m m' : TmuxServerManager.t) (es : list Effect),
  run m evs = Some (m', es) ->
  Forall error_free evs ->
  Forall (fun c => TmuxCommand.to_bool c = true) (TmuxServerManager.m_pendingCommands m) ->
  calledResponseHandlers es `prefix_of` handlers (serviceOrder m (sends evs)).
Proof.
  induction evs as [|ev rest IH]; intros m m' es Hrun Hev Hq.
  - inversion Hrun; subst. apply prefix_nil.
  - apply run_cons_inv in Hrun as (m1 & e1 & e2 & Hstep & Hrun & ->).
    unfold calledResponseHandlers at 1. rewrite omap_app.
    fold (calledResponseHandlers e1). fold (calledResponseHandlers e2).
    inversion Hev as [|? ? Hev1 Hrest]; subst.
    specialize (IH m1 m' e2 Hrun Hrest).
    destruct ev as [c|r|r| |s nm]; cbn in Hev1; try contradiction;
      cbn [step] in Hstep; injection Hstep as Hstep.
    + (* a command is sent *)
      change (sends (Send c :: rest)) with (c :: sends rest).
      destruct (TmuxCommand.to_bool (TmuxServerManager.m_currentCommand m)) eqn:Hc.
      * rewrite sendCommand_in_flight in Hstep by assumption.
        injection Hstep as <- <-.
        unfold serviceOrder in *. cbn in IH. rewrite Hc in *.
        rewrite <- app_assoc in IH. cbn in IH. apply IH.
        apply Forall_app. split; [assumption|]. now constructor.
      * rewrite sendCommand_idle in Hstep by assumption.
        injection Hstep as <- <-.
        specialize (IH Hq).
        unfold serviceOrder in *. cbn in IH. rewrite Hev1 in IH. rewrite Hc.
        exact IH.
    + (* a response arrives *)
      change (sends (EndOfResponse r :: rest)) with (sends rest).
      destruct (TmuxCommand.to_bool (TmuxServerManager.m_currentCommand m)) eqn:Hc.
      * destruct (receiveCommandResponse_in_flight m r Hc) as (h & Hh & Hcalled & Hnext).
        cbv zeta in Hcalled, Hnext. rewrite Hstep in Hcalled, Hnext.
        cbn [fst snd] in Hcalled, Hnext. rewrite Hcalled.
        unfold serviceOrder at 1. rewrite Hc. unfold handlers. cbn.
        rewrite Hh. apply prefix_cons.
        destruct (TmuxServerManager.m_pendingCommands m) as [|next q] eqn:Hpend.
        -- destruct Hnext as (Hidle & Hq' & _).
           unfold serviceOrder in IH. rewrite Hidle, Hq' in IH.
           specialize (IH Hq). unfold handlers in IH.
           destruct (sends rest) as [|c cs]; exact IH.
        -- destruct Hnext as (Hcur & Hq' & _).
           apply Forall_cons in Hq as [Hnext_ok Hq_ok].
           unfold serviceOrder in IH. rewrite Hcur, Hq', Hnext_ok in IH.
           now apply IH.
      * unfold TmuxServerManager.receiveCommandResponse in Hstep. rewrite Hc in Hstep.
        injection Hstep as <- <-. cbn.
        now apply IH.
Qed.

(** X1: on a fresh controller the attach command is answered right after the
    first command sent; the commands sent are answered in the order in which
    they were sent. *)
Lemma fifo_from_new (evs : list Event) :
  Forall error_free evs ->
  exists m es,
    run TmuxServerManager.new evs = Some (m, es)
    /\ calledResponseHandlers es
       `prefix_of` match handlers (sends evs) with
                   | [] => []
                   | h :: hs => h :: tmuxAttachHandler :: hs
                   end.
Proof.
  intros Hev.
  destruct (error_free_run_defined evs Hev TmuxServerManager.new) as (m & es & Hrun).
  exists m, es. split; [assumption|].
  pose proof (fifo_without_errors evs TmuxServerManager.new m es Hrun Hev) as H.
  unfold serviceOrder, handlers in *. cbn in H.
  assert (Hs : Forall (fun c => TmuxCommand.to_bool c = true) (sends evs)).
  { clear H Hrun. induction Hev as [|ev rest Hev1 _ IH]; [constructor|].
    destruct ev; cbn in Hev1; try contradiction; cbn; auto. }
  destruct (sends evs) as [|c cs]; cbn in *.
  - apply H. repeat constructor.
  - inversion Hs as [|? ? Hc _]; subst.
    destruct (to_bool_handlers c Hc) as (h & e & Hh & _).
    rewrite Hh in *. apply H. repeat constructor.
Qed.

Lemma fifo_from_new_witness :
  exists m es,
    run TmuxServerManager.new
      [Send (clientCommand 1); Send (clientCommand 2);
       EndOfResponse []; EndOfResponse []; EndOfResponse []]
    = Some (m, es)
    /\ calledResponseHandlers es
       `prefix_of` [clientHandler 1; tmuxAttachHandler; clientHandler 2].
Proof.
  refine (fifo_from_new
            [Send (clientCommand 1); Send (clientCommand 2);
             EndOfResponse []; EndOfResponse []; EndOfResponse []] _).
  repeat constructor.
Defined.

(** ** The controller: sessions *)

Lemma konsole_size_format (n : Z) :
  QString_arg (lit "show -v -q -t $%1 @konsole_size") n
  = lit "show -v -q -t $" ++ QString_number n ++ lit " @konsole_size".
Proof. reflexivity. Qed.

(** X3: a notification for a session that is not in the table yet creates its
    record, makes it the active session and passes to [sendCommand] a query
    whose target is the session that was active before. *)
Lemma receiveSessionChanged_new_session (m : TmuxServerManager.t) (session : Z)
    (name : QString) :
  TmuxServerManager.m_sessions m !! session = None ->
  let r := TmuxServerManager.receiveSessionChanged m session name in
  let q := konsoleSizeQuery (TmuxServerManager.m_activeSession m) session in
  TmuxServerManager.m_sessions (fst r) !! session = Some (mkSession name None)
  /\ TmuxServerManager.m_activeSession (fst r) = session
  /\ (TmuxCommand.to_bool (TmuxServerManager.m_currentCommand m) = false ->
      TmuxServerManager.m_currentCommand (fst r) = q
      /\ snd r = [doSendCommand (TmuxCommand.command q)])
  /\ (TmuxCommand.to_bool (TmuxServerManager.m_currentCommand m) = true ->
      TmuxServerManager.m_pendingCommands (fst r)
      = TmuxServerManager.m_pendingCommands m ++ [q]
      /\ snd r = []).
Proof.
  intros Hnew. unfold TmuxServerManager.receiveSessionChanged. rewrite Hnew.
  rewrite konsole_size_format. cbn [TmuxServerManager.with_sessions TmuxServerManager.m_activeSession].
  fold (konsoleSizeQuery (TmuxServerManager.m_activeSession m) session).
  unfold TmuxServerManager.sendCommand. cbn [TmuxServerManager.with_sessions TmuxServerManager.m_currentCommand].
  destruct (TmuxCommand.to_bool (TmuxServerManager.m_currentCommand m)); cbn;
    rewrite lookup_insert_eq; repeat split; intros; try discriminate; reflexivity.
Qed.

Lemma receiveSessionChanged_new_session_witness :
  let r := TmuxServerManager.receiveSessionChanged TmuxServerManager.new 0 (lit "default") in
  let q := konsoleSizeQuery (-1) 0 in
  TmuxServerManager.m_sessions (fst r) !! 0 = Some (mkSession (lit "default") None)
  /\ TmuxServerManager.m_activeSession (fst r) = 0
  /\ (TmuxCommand.to_bool (TmuxServerManager.m_currentCommand TmuxServerManager.new) = false ->
      TmuxServerManager.m_currentCommand (fst r) = q
      /\ snd r = [doSendCommand (TmuxCommand.command q)])
  /\ (TmuxCommand.to_bool (TmuxServerManager.m_currentCommand TmuxServerManager.new) = true ->
      TmuxServerManager.m_pendingCommands (fst r)
      = TmuxServerManager.m_pendingCommands TmuxServerManager.new ++ [q]
      /\ snd r = []).
Proof.
  exact (receiveSessionChanged_new_session TmuxServerManager.new 0 (lit "default") eq_refl).
Defined.

(** A notification for a known session renames it, makes it the active
    session and sends nothing. *)
Lemma receiveSessionChanged_known_session (m : TmuxServerManager.t) (session : Z)
    (name : QString) (s : TmuxSessionManager) :
  TmuxServerManager.m_sessions m !! session = Some s ->
  let r := TmuxServerManager.receiveSessionChanged m session name in
  TmuxServerManager.m_sessions (fst r) !! session = Some (setName name s)
  /\ TmuxServerManager.m_activeSession (fst r) = session
  /\ TmuxServerManager.m_pendingCommands (fst r) = TmuxServerManager.m_pendingCommands m
  /\ snd r = [].
Proof.
  intros Hs. unfold TmuxServerManager.receiveSessionChanged. rewrite Hs. cbn.
  rewrite lookup_insert_eq. auto.
Qed.

Lemma scanKonsoleSize_height (hs : list Z) :
  Forall digit hs ->
  forall w h, 0 <= h ->
  fold_left (fun a c => a * 10 + (c - 0x30)) hs h <= INT_MAX ->
  TmuxServerManager.scanKonsoleSize hs 1 w h
  = inr (w, fold_left (fun a c => a * 10 + (c - 0x30)) hs h).
Proof.
  induction 1 as [|c r Hc Hr IH]; intros w h Hh Hmax; [reflexivity|].
  cbn [fold_left] in Hmax. unfold digit in Hc.
  pose proof (fold_decimal_ge r Hr (h * 10 + (c - 0x30)) ltac:(lia)) as Hge.
  cbn [TmuxServerManager.scanKonsoleSize fold_left].
  replace ((0x30 <=? c) && (c <=? 0x39)) with true by lia. cbn.
  rewrite wrap_int_small by (unfold INT_MIN, INT_MAX in *; lia).
  apply IH; [lia | assumption].
Qed.

Lemma scanKonsoleSize_width (ws hs : list Z) :
  Forall digit ws -> Forall digit hs -> decimalValue hs <= INT_MAX ->
  forall w, 0 <= w ->
  fold_left (fun a c => a * 10 + (c - 0x30)) ws w <= INT_MAX ->
  TmuxServerManager.scanKonsoleSize (ws ++ char "," :: hs) 0 w 0
  = inr (fold_left (fun a c => a * 10 + (c - 0x30)) ws w, decimalValue hs).
Proof.
  intros Hws Hhs Hhmax.
  induction Hws as [|c r Hc Hr IH]; intros w Hw Hmax.
  - cbn. apply scanKonsoleSize_height; [assumption | lia | assumption].
  - cbn [fold_left] in Hmax. unfold digit in Hc.
    pose proof (fold_decimal_ge r Hr (w * 10 + (c - 0x30)) ltac:(lia)) as Hge.
    cbn [app TmuxServerManager.scanKonsoleSize fold_left].
    replace ((0x30 <=? c) && (c <=? 0x39)) with true by lia. cbn.
    rewrite wrap_int_small by (unfold INT_MIN, INT_MAX in *; lia).
    apply IH; [lia | assumption].
Qed.

(** X4: the response [<W>,<H>] to the query sets the size of the session the
    handler was made for to the two decimal values. *)
Lemma konsoleSize_sets_size (m : TmuxServerManager.t) (session : Z)
    (s : TmuxSessionManager) (ws hs : list Z) :
  TmuxServerManager.m_sessions m !! session = Some s ->
  Forall digit ws -> Forall digit hs ->
  decimalValue ws <= INT_MAX -> decimalValue hs <= INT_MAX ->
  let r := TmuxServerManager.callResponseHandler (konsoleSizeHandler session) m
             [ws ++ char "," :: hs] in
  TmuxServerManager.m_sessions (fst r) !! session
  = Some (setGuiWindowSize (decimalValue ws) (decimalValue hs) s)
  /\ snd r = [].
Proof.
  intros Hs Hws Hhs Hwmax Hhmax. cbn. unfold TmuxServerManager.konsoleSize.
  rewrite scanKonsoleSize_width by (assumption || lia).
  fold (decimalValue ws). rewrite Hs. cbn. now rewrite lookup_insert_eq.
Qed.

Lemma konsoleSize_sets_size_witness :
  let m := fst (TmuxServerManager.receiveSessionChanged TmuxServerManager.new 0 (lit "default")) in
  let r := TmuxServerManager.callResponseHandler (konsoleSizeHandler 0) m [lit "80,24"] in
  TmuxServerManager.m_sessions (fst r) !! 0
  = Some (setGuiWindowSize 80 24 (mkSession (lit "default") None))
  /\ snd r = [].
Proof.
  refine (konsoleSize_sets_size
            (fst (TmuxServerManager.receiveSessionChanged TmuxServerManager.new 0 (lit "default")))
            0 (mkSession (lit "default") None) (lit "80") (lit "24") _ _ _ _ _).
  - reflexivity.
  - now apply digits_check.
  - now apply digits_check.
  - vm_compute; discriminate.
  - vm_compute; discriminate.
Defined.

(** [updateSessions] leaves the controller, and so its session table, as it
    was, whatever the response. *)
Lemma updateSessions_keeps_sessions (m : TmuxServerManager.t) (response : Response) :
  TmuxServerManager.updateSessions m response = m.
Proof. reflexivity. Qed.

Lemma scanSession_digits (ds : list Z) :
  Forall digit ds ->
  forall i s, 0 <= s ->
  fold_left (fun a c => a * 10 + (c - 0x30)) ds s <= INT_MAX ->
  fold_left TmuxServerManager.scanSession ds (1, i, s)
  = (1, i + Z.of_nat (length ds), fold_left (fun a c => a * 10 + (c - 0x30)) ds s).
Proof.
  induction 1 as [|c r Hc Hr IH]; intros i s Hs Hmax.
  - cbn. f_equal. f_equal. lia.
  - cbn [fold_left] in Hmax. unfold digit in Hc.
    pose proof (fold_decimal_ge r Hr (s * 10 + (c - 0x30)) ltac:(lia)) as Hge.
    cbn [fold_left]. unfold TmuxServerManager.scanSession at 2. cbn.
    replace ((0x30 <=? c) && (c <=? 0x39)) with true by lia.
    rewrite wrap_int_small by (unfold INT_MIN, INT_MAX in *; lia).
    rewrite IH by (lia || assumption).
    f_equal. f_equal. cbn [length]. lia.
Qed.

Lemma scanSession_name (name : list Z) (i s : Z) :
  fold_left TmuxServerManager.scanSession name (2, i, s) = (2, i, s).
Proof. induction name as [|c r IH]; [reflexivity | exact IH]. Qed.

Lemma scanSession_line (ds name : list Z) :
  Forall digit ds -> decimalValue ds <= INT_MAX ->
  fold_left TmuxServerManager.scanSession (char "$" :: ds ++ char " " :: name) (0, 0, 0)
  = (2, 1 + Z.of_nat (length ds) + 1, decimalValue ds).
Proof.
  intros Hds Hmax.
  change (fold_left TmuxServerManager.scanSession (char "$" :: ds ++ char " " :: name) (0, 0, 0))
    with (fold_left TmuxServerManager.scanSession (ds ++ char " " :: name) (1, 1, 0)).
  rewrite fold_left_app, scanSession_digits by (assumption || lia).
  fold (decimalValue ds).
  change (fold_left TmuxServerManager.scanSession (char " " :: name)
            (1, 1 + Z.of_nat (length ds), decimalValue ds))
    with (fold_left TmuxServerManager.scanSession name
            (TmuxServerManager.scanSession (1, 1 + Z.of_nat (length ds), decimalValue ds) (char " "))).
  assert (Hsp : TmuxServerManager.scanSession (1, 1 + Z.of_nat (length ds), decimalValue ds) (char " ")
                = (2, 1 + Z.of_nat (length ds) + 1, decimalValue ds)) by reflexivity.
  rewrite Hsp. apply scanSession_name.
Qed.

Lemma updatedSessions_single (line : list Z) :
  TmuxServerManager.updatedSessions [line]
  = let '(_, i, session) := fold_left TmuxServerManager.scanSession line (0, 0, 0) in
    [(session, skipn (Z.to_nat i) line)].
Proof.
  unfold TmuxServerManager.updatedSessions, fromUcs4.
  change (fold_left ?f [line] []) with (f [] line). cbv beta.
  now destruct (fold_left TmuxServerManager.scanSession line (0, 0, 0)) as [[c i] s].
Qed.

(** X5: the line [$<id> <name>] is parsed into the pair of the decimal value of
    the id and the rest of the line. *)
Lemma updatedSessions_line (ds name : list Z) :
  Forall digit ds -> decimalValue ds <= INT_MAX ->
  TmuxServerManager.updatedSessions [char "$" :: ds ++ char " " :: name]
  = [(decimalValue ds, name)].
Proof.
  intros Hds Hmax.
  rewrite updatedSessions_single, scanSession_line by assumption.
  do 2 f_equal.
  replace (Z.to_nat (1 + Z.of_nat (length ds) + 1)) with (S (length ds + 1)) by lia.
  cbn [skipn]. rewrite skipn_app.
  replace (length ds + 1 - length ds)%nat with 1%nat by lia.
  rewrite skipn_all2 by lia. reflexivity.
Qed.

Lemma updatedSessions_line_witness :
  TmuxServerManager.updatedSessions [lit "$12 my session"] = [(12, lit "my session")].
Proof.
  refine (updatedSessions_line (lit "12") (lit "my session") _ _).
  - now apply digits_check.
  - vm_compute; discriminate.
Defined.

(** * Whole notification lines *)

(** ** [%output] *)

Module OutputLines.
Import TmuxOutputNotification.

Lemma output_push_id_text (text : list Z) :
  noSpace text ->
  forall n, arg n = 0 ->
  push_chars n text
  = {| arg := 0; octParse := octParse n; octParseChar := octParseChar n;
       lexBuffer := lexBuffer n ++ text; pane := pane n |}.
Proof.
  induction 1 as [|c r Hc _ IH]; intros n Ha.
  - cbn. rewrite app_nil_r. destruct n; cbn in *; now subst.
  - rewrite OutputFacts.push_chars_cons, OutputFacts.push_pane_char by assumption.
    rewrite IH by reflexivity. cbn. now rewrite <- app_assoc.
Qed.

Lemma output_push_pieces (ps : list Piece) :
  Forall wellWritten ps ->
  forall n, arg n <> 0 -> octParse n = 0 -> octParseChar n = 0 ->
  push_chars n (concat (List.map written ps))
  = {| arg := arg n; octParse := 0; octParseChar := 0;
       lexBuffer := lexBuffer n ++ List.map denoted ps; pane := pane n |}.
Proof.
  induction 1 as [|p r Hp _ IH]; intros n Ha Hq Hc.
  - cbn. rewrite app_nil_r. destruct n; cbn in *; now subst.
  - cbn [List.map concat]. rewrite OutputFacts.push_chars_app.
    destruct p as [c|b]; cbn [written denoted] in *.
    + rewrite OutputFacts.push_chars_cons, OutputFacts.push_plain by assumption.
      change (push_chars ?x []) with x.
      rewrite IH by (cbn; auto). cbn. now rewrite <- app_assoc.
    + rewrite OutputFacts.push_octal_escape by assumption.
      rewrite IH by (cbn; auto). cbn. now rewrite <- app_assoc.
Qed.

End OutputLines.

(** X13: a [%output] line is its pane id, a space and the payload.  Whatever
    the id text (without space) and whatever mix of plain code points and
    octal escapes the payload is written in, [execute] delivers what
    [parseTmuxPaneId] makes of the id text and exactly the code points the
    payload stands for. *)
Theorem output_line_decoded (idtext : list Z) (ps : list Piece) :
  noSpace idtext -> Forall wellWritten ps ->
  TmuxOutputNotification.execute
    (TmuxOutputNotification.push_chars TmuxOutputNotification.init
       (idtext ++ char " " :: concat (List.map written ps)))
  = receiveOutput (fst (parseTmuxPaneId idtext true)) (List.map denoted ps).
Proof.
  intros Hid Hps.
  rewrite OutputFacts.push_chars_app.
  rewrite (OutputLines.output_push_id_text idtext Hid) by reflexivity.
  rewrite OutputFacts.push_chars_cons.
  unfold TmuxOutputNotification.push_char at 1. cbn.
  destruct (parseTmuxPaneId idtext true) as [ret okv].
  rewrite OutputLines.output_push_pieces by (assumption || (cbn; (reflexivity || discriminate))).
  reflexivity.
Qed.

Lemma output_line_decoded_witness :
  TmuxOutputNotification.execute
    (TmuxOutputNotification.push_chars TmuxOutputNotification.init
       (lit "%7 a\033\134b c"))
  = receiveOutput (Some 7) [97; 27; 92; 98; 32; 99].
Proof.
  refine (output_line_decoded (lit "%7")
            [literal 97; escaped 27; escaped 92; literal 98; literal 32; literal 99] _ _).
  - repeat constructor; discriminate.
  - repeat constructor; (discriminate || (cbn; lia)).
Defined.

(** ** [%extended-output] *)

Module ExtendedOutputLines.
Import TmuxExtendedOutputNotification.

Lemma extended_push_chars_app (n : t) (l1 l2 : list Z) :
  push_chars n (l1 ++ l2) = push_chars (push_chars n l1) l2.
Proof. apply fold_left_app. Qed.

Lemma extended_push_text (text : list Z) :
  noSpace text ->
  forall n, 0 <= arg n < 2 ->
  push_chars n text
  = {| arg := arg n; octParse := octParse n; octParseChar := octParseChar n;
       lexBuffer := lexBuffer n ++ text; pane := pane n; age := age n |}.
Proof.
  induction 1 as [|c r Hc _ IH]; intros n Ha.
  - cbn. rewrite app_nil_r. now destruct n.
  - change (push_chars n (c :: r)) with (push_chars (push_char n c) r).
    assert (Hstep : push_char n c
                    = {| arg := arg n; octParse := octParse n; octParseChar := octParseChar n;
                         lexBuffer := lexBuffer n ++ [c]; pane := pane n; age := age n |}).
    { unfold push_char. apply Z.eqb_neq in Hc. rewrite Hc, !andb_false_r.
      now replace (arg n <? 2) with true by lia. }
    rewrite Hstep, IH by (cbn; lia). cbn. now rewrite <- app_assoc.
Qed.

Lemma extended_push_chars_cons (n : t) (cc : Z) (line : list Z) :
  push_chars n (cc :: line) = push_chars (push_char n cc) line.
Proof. reflexivity. Qed.

Lemma extended_push_pane_space (n : t) :
  arg n = 0 ->
  push_char n (char " ")
  = {| arg := 1; octParse := octParse n; octParseChar := octParseChar n;
       lexBuffer := []; pane := fst (parseTmuxPaneId (lexBuffer n) true); age := age n |}.
Proof.
  intros Ha. unfold push_char. rewrite Ha. cbn.
  now destruct (parseTmuxPaneId (lexBuffer n) true).
Qed.

Lemma extended_push_age_space (n : t) :
  arg n = 1 ->
  push_char n (char " ")
  = {| arg := 2; octParse := octParse n; octParseChar := octParseChar n;
       lexBuffer := []; pane := pane n; age := fst (QString_toULongLong (lexBuffer n)) |}.
Proof.
  intros Ha. unfold push_char, fromUcs4. rewrite Ha. cbn.
  now destruct (QString_toULongLong (lexBuffer n)).
Qed.

Lemma extended_stuck_before_payload (rest : list Z) (k c : Z) (p : option Z) (a : Z) :
  push_chars {| arg := 2; octParse := k; octParseChar := c; lexBuffer := [];
                pane := p; age := a |} rest
  = {| arg := 2; octParse := k; octParseChar := c; lexBuffer := []; pane := p; age := a |}.
Proof.
  induction rest as [|cc r IH]; [reflexivity|].
  change (push_chars ?n (cc :: r)) with (push_chars (push_char n cc) r).
  assert (Hstep : push_char {| arg := 2; octParse := k; octParseChar := c; lexBuffer := [];
                               pane := p; age := a |} cc
                  = {| arg := 2; octParse := k; octParseChar := c; lexBuffer := [];
                       pane := p; age := a |}).
  { unfold push_char. cbn. now destruct (cc =? char " "). }
  now rewrite Hstep.
Qed.

End ExtendedOutputLines.

(** X14: a [%extended-output] line is its pane id, its age and then the rest.
    [execute] delivers what [parseTmuxPaneId] makes of the first text and
    what [QString::toULongLong] makes of the second, and an empty payload,
    whatever follows the second space. *)
Theorem extended_output_line_payload_lost (idtext agetext rest : list Z) :
  noSpace idtext -> noSpace agetext ->
  TmuxExtendedOutputNotification.execute
    (TmuxExtendedOutputNotification.push_chars TmuxExtendedOutputNotification.init
       (idtext ++ char " " :: agetext ++ char " " :: rest))
  = receiveExtendedOutput (fst (parseTmuxPaneId idtext true))
      (fst (QString_toULongLong agetext)) [].
Proof.
  intros Hid Hage.
  rewrite ExtendedOutputLines.extended_push_chars_app.
  rewrite (ExtendedOutputLines.extended_push_text idtext Hid) by (cbn; lia).
  rewrite ExtendedOutputLines.extended_push_chars_cons, ExtendedOutputLines.extended_push_pane_space
    by reflexivity.
  rewrite ExtendedOutputLines.extended_push_chars_app.
  rewrite (ExtendedOutputLines.extended_push_text agetext Hage) by (cbn; lia).
  rewrite ExtendedOutputLines.extended_push_chars_cons, ExtendedOutputLines.extended_push_age_space
    by reflexivity.
  now rewrite ExtendedOutputLines.extended_stuck_before_payload.
Qed.

Lemma extended_output_line_payload_lost_witness :
  TmuxExtendedOutputNotification.execute
    (TmuxExtendedOutputNotification.push_chars TmuxExtendedOutputNotification.init
       (lit "%7 1500 : hello"))
  = receiveExtendedOutput (Some 7) 1500 [].
Proof.
  refine (extended_output_line_payload_lost (lit "%7") (lit "1500") (lit ": hello") _ _).
  - repeat constructor; discriminate.
  - repeat constructor; discriminate.
Defined.

(** ** Identifiers inside lines *)

Lemma digits_noSpace (ds : list Z) : Forall digit ds -> noSpace ds.
Proof.
  unfold noSpace. intros H. eapply Forall_impl; [exact H|].
  unfold digit. intros c Hc ->. vm_compute in Hc. destruct Hc as [Hc _]. now apply Hc.
Qed.

Lemma parseTmuxId_digits (C : Z) (ds : list Z) (ok : bool) :
  ds <> [] -> Forall digit ds -> decimalValue ds <= INT_MAX ->
  parseTmuxId C (C :: ds) ok
  = (Some (decimalValue ds), if ok then Some true else None).
Proof.
  intros Hne Hds Hmax.
  rewrite parseTmuxId_toInt; [|assumption|].
  - now rewrite QString_toInt_digits.
  - intros ->. inversion Hds as [|c r Hc _]; subst.
    unfold digit in Hc. vm_compute in Hc. destruct Hc as [Hc _]. now apply Hc.
Qed.

(** ** [%session-changed] *)

Module SessionChangedLines.
Import TmuxSessionChangedNotification.

Lemma session_push_chars_app (n : t) (l1 l2 : list Z) :
  push_chars n (l1 ++ l2) = push_chars (push_chars n l1) l2.
Proof. apply fold_left_app. Qed.

Lemma session_push_chars_cons (n : t) (cc : Z) (line : list Z) :
  push_chars n (cc :: line) = push_chars (push_char n cc) line.
Proof. reflexivity. Qed.

Lemma session_push_id_text (text : list Z) :
  noSpace text ->
  forall n, arg n = 0 ->
  push_chars n text = {| arg := 0; lexBuffer := lexBuffer n ++ text; session := session n |}.
Proof.
  induction 1 as [|c r Hc _ IH]; intros n Ha.
  - cbn. rewrite app_nil_r. destruct n; cbn in *; now subst.
  - rewrite session_push_chars_cons.
    assert (Hstep : push_char n c
                    = {| arg := 0; lexBuffer := lexBuffer n ++ [c]; session := session n |}).
    { unfold push_char. apply Z.eqb_neq in Hc. now rewrite Hc, andb_false_r, Ha. }
    rewrite Hstep, IH by reflexivity. cbn. now rewrite <- app_assoc.
Qed.

Lemma session_push_id_space (n : t) :
  arg n = 0 ->
  push_char n (char " ")
  = {| arg := 1; lexBuffer := []; session := fst (parseTmuxSessionId (lexBuffer n) true) |}.
Proof.
  intros Ha. unfold push_char. rewrite Ha. cbn.
  now destruct (parseTmuxSessionId (lexBuffer n) true).
Qed.

Lemma session_push_name (name : list Z) :
  forall n, arg n <> 0 ->
  push_chars n name
  = {| arg := arg n; lexBuffer := lexBuffer n ++ name; session := session n |}.
Proof.
  induction name as [|c r IH]; intros n Ha.
  - cbn. rewrite app_nil_r. now destruct n.
  - rewrite session_push_chars_cons.
    assert (Hstep : push_char n c
                    = {| arg := arg n; lexBuffer := lexBuffer n ++ [c]; session := session n |}).
    { unfold push_char. apply Z.eqb_neq in Ha. now rewrite Ha. }
    rewrite Hstep, IH by assumption. cbn. now rewrite <- app_assoc.
Qed.

Lemma session_push_line (idtext name : list Z) :
  noSpace idtext ->
  push_chars init (idtext ++ char " " :: name)
  = {| arg := 1; lexBuffer := name; session := fst (parseTmuxSessionId idtext true) |}.
Proof.
  intros Hid. rewrite session_push_chars_app, (session_push_id_text idtext Hid) by reflexivity.
  rewrite session_push_chars_cons, session_push_id_space by reflexivity.
  now rewrite session_push_name by (cbn; discriminate).
Qed.

End SessionChangedLines.

(** X15: the line [$<digits> <name>] of [%session-changed], the name being
    anything up to the end of the line, spaces included, reaches the
    controller as [receiveSessionChanged] with the decimal value and the
    name. *)
Theorem session_changed_line (ds name : list Z) (m : TmuxServerManager.t) :
  ds <> [] -> Forall digit ds -> decimalValue ds <= INT_MAX ->
  TmuxSessionChangedNotification.execute
    (TmuxSessionChangedNotification.push_chars TmuxSessionChangedNotification.init
       (char "$" :: ds ++ char " " :: name)) m
  = Some (TmuxServerManager.receiveSessionChanged m (decimalValue ds) name).
Proof.
  intros Hne Hds Hmax.
  change (char "$" :: ds ++ char " " :: name) with ((char "$" :: ds) ++ char " " :: name).
  rewrite SessionChangedLines.session_push_line.
  - unfold parseTmuxSessionId. rewrite parseTmuxId_digits by assumption. reflexivity.
  - constructor; [discriminate | now apply digits_noSpace].
Qed.

Lemma session_changed_line_witness :
  TmuxSessionChangedNotification.execute
    (TmuxSessionChangedNotification.push_chars TmuxSessionChangedNotification.init
       (lit "$3 my work")) TmuxServerManager.new
  = Some (TmuxServerManager.receiveSessionChanged TmuxServerManager.new 3 (lit "my work")).
Proof.
  refine (session_changed_line (lit "3") (lit "my work") TmuxServerManager.new _ _ _).
  - discriminate.
  - now apply digits_check.
  - vm_compute; discriminate.
Defined.

(** X16: an id text that [parseTmuxSessionId] rejects does not stop
    [%session-changed]: when the text before the first space is too short or
    does not start with [$], the controller is still called, for session -2
    and with the name. *)
Theorem session_changed_line_bad_id (text name : list Z) (m : TmuxServerManager.t) :
  noSpace text ->
  (length text < 2)%nat \/ nth 0 text 0 <> char "$" ->
  TmuxSessionChangedNotification.execute
    (TmuxSessionChangedNotification.push_chars TmuxSessionChangedNotification.init
       (text ++ char " " :: name)) m
  = Some (TmuxServerManager.receiveSessionChanged m (-2) name).
Proof.
  intros Htext Hbad. rewrite SessionChangedLines.session_push_line by assumption.
  unfold parseTmuxSessionId. now rewrite parseTmuxId_reject.
Qed.

Lemma session_changed_line_bad_id_witness :
  TmuxSessionChangedNotification.execute
    (TmuxSessionChangedNotification.push_chars TmuxSessionChangedNotification.init
       (lit "@1 work")) TmuxServerManager.new
  = Some (TmuxServerManager.receiveSessionChanged TmuxServerManager.new (-2) (lit "work")).
Proof.
  refine (session_changed_line_bad_id (lit "@1") (lit "work") TmuxServerManager.new _ _).
  - repeat constructor; discriminate.
  - right; discriminate.
Defined.

(** ** [%layout-change] *)

Module LayoutChangeLines.
Import TmuxLayoutChangeNotification.

Lemma layout_push_after_first_space (line : list Z) :
  forall a, 1 <= a ->
  exists a', 1 <= a'
    /\ push_chars {| arg := a; lexBuffer := []; window := Some (-2); windowLayout := [];
                     windowVisibleLayout := [] |} line
       = {| arg := a'; lexBuffer := []; window := Some (-2); windowLayout := [];
            windowVisibleLayout := [] |}.
Proof.
  induction line as [|c r IH]; intros a Ha.
  - exists a. now split.
  - change (push_chars ?n (c :: r)) with (push_chars (push_char n c) r).
    unfold push_char at 1. cbn.
    replace (a =? 0) with false by lia. cbn.
    repeat case_if; cbn; try (apply IH; lia).
Qed.

Lemma layout_push_before_first_space (line : list Z) :
  hasSpace line = false -> push_chars init line = init.
Proof.
  induction line as [|c r IH]; [reflexivity|].
  cbn. intros H. apply orb_false_iff in H as [Hc Hr].
  change (push_chars init (c :: r)) with (push_chars (push_char init c) r).
  assert (Hstep : push_char init c = init) by (unfold push_char; cbn; now rewrite Hc).
  rewrite Hstep. now apply IH.
Qed.

Lemma layout_push_with_space (line : list Z) :
  hasSpace line = true ->
  exists a', 1 <= a'
    /\ push_chars init line
       = {| arg := a'; lexBuffer := []; window := Some (-2); windowLayout := [];
            windowVisibleLayout := [] |}.
Proof.
  induction line as [|c r IH]; [discriminate|].
  cbn. intros H.
  change (push_chars init (c :: r)) with (push_chars (push_char init c) r).
  destruct (c =? char " ") eqn:Hc.
  - assert (Hstep : push_char init c
                    = {| arg := 1; lexBuffer := []; window := Some (-2); windowLayout := [];
                         windowVisibleLayout := [] |}).
    { unfold push_char. cbn. now rewrite Hc. }
    rewrite Hstep. apply layout_push_after_first_space. lia.
  - assert (Hstep : push_char init c = init) by (unfold push_char; cbn; now rewrite Hc).
    rewrite Hstep. now apply IH.
Qed.

End LayoutChangeLines.

(** X21: [%layout-change] keeps no character of its line.  Whatever the line,
    [execute] delivers three empty layout strings; the window id is -2 as
    soon as the line holds a space, and the one the object was constructed
    with otherwise. *)
Theorem layout_change_stores_nothing (line : list Z) :
  TmuxLayoutChangeNotification.execute
    (TmuxLayoutChangeNotification.push_chars TmuxLayoutChangeNotification.init line)
  = receiveLayoutChange
      (if hasSpace line then Some (-2)
       else TmuxLayoutChangeNotification.window TmuxLayoutChangeNotification.init)
      [] [] [].
Proof.
  destruct (hasSpace line) eqn:Hs.
  - destruct (LayoutChangeLines.layout_push_with_space line Hs) as (a' & _ & ->). reflexivity.
  - now rewrite LayoutChangeLines.layout_push_before_first_space.
Qed.

(** ** [%window-close] and its siblings *)

Lemma window_close_step (a w cc : Z) :
  TmuxWindowCloseNotification.push_char (TmuxWindowCloseNotification.mk a w) cc
  = TmuxWindowCloseNotification.mk
      (TmuxWindowAddNotification.arg
         (TmuxWindowAddNotification.push_char (TmuxWindowAddNotification.mk a w) cc))
      (TmuxWindowAddNotification.window
         (TmuxWindowAddNotification.push_char (TmuxWindowAddNotification.mk a w) cc)).
Proof.
  unfold TmuxWindowCloseNotification.push_char, TmuxWindowAddNotification.push_char. cbn.
  repeat case_if; reflexivity.
Qed.

Lemma unlinked_window_close_step (a w cc : Z) :
  TmuxUnlinkedWindowCloseNotification.push_char (TmuxUnlinkedWindowCloseNotification.mk a w) cc
  = TmuxUnlinkedWindowCloseNotification.mk
      (TmuxWindowAddNotification.arg
         (TmuxWindowAddNotification.push_char (TmuxWindowAddNotification.mk a w) cc))
      (TmuxWindowAddNotification.window
         (TmuxWindowAddNotification.push_char (TmuxWindowAddNotification.mk a w) cc)).
Proof.
  unfold TmuxUnlinkedWindowCloseNotification.push_char, TmuxWindowAddNotification.push_char.
  cbn. repeat case_if; reflexivity.
Qed.

Lemma unlinked_window_renamed_step (a w cc : Z) :
  TmuxUnlinkedWindowRenamedNotification.push_char
    (TmuxUnlinkedWindowRenamedNotification.mk a w) cc
  = TmuxUnlinkedWindowRenamedNotification.mk
      (TmuxWindowAddNotification.arg
         (TmuxWindowAddNotification.push_char (TmuxWindowAddNotification.mk a w) cc))
      (TmuxWindowAddNotification.window
         (TmuxWindowAddNotification.push_char (TmuxWindowAddNotification.mk a w) cc)).
Proof.
  unfold TmuxUnlinkedWindowRenamedNotification.push_char, TmuxWindowAddNotification.push_char.
  cbn. repeat case_if; reflexivity.
Qed.

Lemma window_close_run (line : list Z) :
  forall a w,
  TmuxWindowCloseNotification.push_chars (TmuxWindowCloseNotification.mk a w) line
  = TmuxWindowCloseNotification.mk
      (TmuxWindowAddNotification.arg
         (TmuxWindowAddNotification.push_chars (TmuxWindowAddNotification.mk a w) line))
      (TmuxWindowAddNotification.window
         (TmuxWindowAddNotification.push_chars (TmuxWindowAddNotification.mk a w) line)).
Proof.
  induction line as [|c r IH]; intros a w; [reflexivity|].
  change (TmuxWindowCloseNotification.push_chars ?n (c :: r))
    with (TmuxWindowCloseNotification.push_chars (TmuxWindowCloseNotification.push_char n c) r).
  change (TmuxWindowAddNotification.push_chars ?n (c :: r))
    with (TmuxWindowAddNotification.push_chars (TmuxWindowAddNotification.push_char n c) r).
  rewrite window_close_step.
  destruct (TmuxWindowAddNotification.push_char (TmuxWindowAddNotification.mk a w) c) as [a' w'].
  apply IH.
Qed.

Lemma unlinked_window_close_run (line : list Z) :
  forall a w,
  TmuxUnlinkedWindowCloseNotification.push_chars
    (TmuxUnlinkedWindowCloseNotification.mk a w) line
  = TmuxUnlinkedWindowCloseNotification.mk
      (TmuxWindowAddNotification.arg
         (TmuxWindowAddNotification.push_chars (TmuxWindowAddNotification.mk a w) line))
      (TmuxWindowAddNotification.window
         (TmuxWindowAddNotification.push_chars (TmuxWindowAddNotification.mk a w) line)).
Proof.
  induction line as [|c r IH]; intros a w; [reflexivity|].
  change (TmuxUnlinkedWindowCloseNotification.push_chars ?n (c :: r))
    with (TmuxUnlinkedWindowCloseNotification.push_chars
            (TmuxUnlinkedWindowCloseNotification.push_char n c) r).
  change (TmuxWindowAddNotification.push_chars ?n (c :: r))
    with (TmuxWindowAddNotification.push_chars (TmuxWindowAddNotification.push_char n c) r).
  rewrite unlinked_window_close_step.
  destruct (TmuxWindowAddNotification.push_char (TmuxWindowAddNotification.mk a w) c) as [a' w'].
  apply IH.
Qed.

Lemma unlinked_window_renamed_run (line : list Z) :
  forall a w,
  TmuxUnlinkedWindowRenamedNotification.push_chars
    (TmuxUnlinkedWindowRenamedNotification.mk a w) line
  = TmuxUnlinkedWindowRenamedNotification.mk
      (TmuxWindowAddNotification.arg
         (TmuxWindowAddNotification.push_chars (TmuxWindowAddNotification.mk a w) line))
      (TmuxWindowAddNotification.window
         (TmuxWindowAddNotification.push_chars (TmuxWindowAddNotification.mk a w) line)).
Proof.
  induction line as [|c r IH]; intros a w; [reflexivity|].
  change (TmuxUnlinkedWindowRenamedNotification.push_chars ?n (c :: r))
    with (TmuxUnlinkedWindowRenamedNotification.push_chars
            (TmuxUnlinkedWindowRenamedNotification.push_char n c) r).
  change (TmuxWindowAddNotification.push_chars ?n (c :: r))
    with (TmuxWindowAddNotification.push_chars (TmuxWindowAddNotification.push_char n c) r).
  rewrite unlinked_window_renamed_step.
  destruct (TmuxWindowAddNotification.push_char (TmuxWindowAddNotification.mk a w) c) as [a' w'].
  apply IH.
Qed.

(** X17: [%window-close], [%unlinked-window-close] and
    [%unlinked-window-renamed] read their line as [%window-add] does: for
    every line the window id each of them delivers is the one [%window-add]
    delivers for that line. *)
Theorem window_close_family_like_window_add (line : list Z) :
  let w := TmuxWindowAddNotification.window
             (TmuxWindowAddNotification.push_chars TmuxWindowAddNotification.init line) in
  TmuxWindowCloseNotification.execute
    (TmuxWindowCloseNotification.push_chars TmuxWindowCloseNotification.init line)
  = receiveWindowClose w
  /\ TmuxUnlinkedWindowCloseNotification.execute
       (TmuxUnlinkedWindowCloseNotification.push_chars
          TmuxUnlinkedWindowCloseNotification.init line)
     = receiveUnlinkedWindowClose w
  /\ TmuxUnlinkedWindowRenamedNotification.execute
       (TmuxUnlinkedWindowRenamedNotification.push_chars
          TmuxUnlinkedWindowRenamedNotification.init line)
     = receiveUnlinkedWindowRenamed w.
Proof.
  cbv zeta. repeat split.
  - unfold TmuxWindowCloseNotification.init, TmuxWindowAddNotification.init.
    now rewrite window_close_run.
  - unfold TmuxUnlinkedWindowCloseNotification.init, TmuxWindowAddNotification.init.
    now rewrite unlinked_window_close_run.
  - unfold TmuxUnlinkedWindowRenamedNotification.init, TmuxWindowAddNotification.init.
    now rewrite unlinked_window_renamed_run.
Qed.

Lemma window_add_bad_char_after_at (rest : list Z) (c : Z) :
  In c rest -> ~ nonzero_digit c ->
  forall w,
  TmuxWindowAddNotification.push_chars (TmuxWindowAddNotification.mk 1 w) rest
  = TmuxWindowAddNotification.mk 2 (-2).
Proof.
  induction rest as [|d r IH]; intros Hin Hbad w; [destruct Hin|].
  unfold TmuxWindowAddNotification.push_chars. cbn [fold_left].
  unfold TmuxWindowAddNotification.push_char at 2. cbn.
  destruct ((0x30 <? d) && (d <=? 0x39)) eqn:Hd; cbn.
  - destruct Hin as [Hc|Hin]; [subst d; exfalso; apply Hbad; unfold nonzero_digit; lia|].
    now apply IH.
  - apply window_add_rejected_stays.
Qed.

(** X18: a window id is lost as soon as anything but the digits 1 to 9
    follows the ['@'].  In particular [%unlinked-window-renamed], whose line
    is an id, a space and a name, always delivers -2. *)
Theorem unlinked_window_renamed_loses_id (ds name : list Z) :
  TmuxUnlinkedWindowRenamedNotification.execute
    (TmuxUnlinkedWindowRenamedNotification.push_chars
       TmuxUnlinkedWindowRenamedNotification.init (char "@" :: ds ++ char " " :: name))
  = receiveUnlinkedWindowRenamed (-2).
Proof.
  unfold TmuxUnlinkedWindowRenamedNotification.init.
  rewrite unlinked_window_renamed_run.
  change (TmuxWindowAddNotification.push_chars (TmuxWindowAddNotification.mk 0 0)
            (char "@" :: ds ++ char " " :: name))
    with (TmuxWindowAddNotification.push_chars (TmuxWindowAddNotification.mk 1 0)
            (ds ++ char " " :: name)).
  rewrite (window_add_bad_char_after_at (ds ++ char " " :: name) (char " ")).
  - reflexivity.
  - apply in_or_app. right. now left.
  - unfold nonzero_digit. vm_compute. intros [H _]. discriminate.
Qed.

(** ** [%window-pane-changed] *)

Module WindowPaneChangedLines.
Import TmuxWindowPaneChangedNotification.

Lemma window_pane_push_chars_app (n : t) (l1 l2 : list Z) :
  push_chars n (l1 ++ l2) = push_chars (push_chars n l1) l2.
Proof. apply fold_left_app. Qed.

Lemma window_pane_push_chars_cons (n : t) (cc : Z) (line : list Z) :
  push_chars n (cc :: line) = push_chars (push_char n cc) line.
Proof. reflexivity. Qed.

Lemma window_pane_push_window_digits (ds : list Z) :
  Forall nonzero_digit ds ->
  forall w p, 0 <= w ->
  fold_left (fun a c => a * 10 + (c - 0x30)) ds w <= INT_MAX ->
  push_chars (mk 1 w p) ds = mk 1 (fold_left (fun a c => a * 10 + (c - 0x30)) ds w) p.
Proof.
  induction 1 as [|c r Hc Hr IH]; intros w p Hw Hmax; [reflexivity|].
  assert (Hdr : Forall digit r).
  { eapply Forall_impl; [exact Hr|]. unfold nonzero_digit, digit. intros; lia. }
  cbn [fold_left] in Hmax. unfold nonzero_digit in Hc.
  pose proof (fold_decimal_ge r Hdr (w * 10 + (c - 0x30)) ltac:(lia)) as Hge.
  rewrite window_pane_push_chars_cons. unfold push_char at 1. cbn.
  replace ((0x30 <? c) && (c <=? 0x39)) with true by lia. cbn.
  rewrite wrap_int_small by (unfold INT_MIN, INT_MAX in *; lia).
  cbn [fold_left]. apply IH; [lia | assumption].
Qed.

Lemma window_pane_push_pane_digits (ds : list Z) :
  Forall nonzero_digit ds ->
  forall w p, 0 <= p ->
  fold_left (fun a c => a * 10 + (c - 0x30)) ds p <= INT_MAX ->
  push_chars (mk 3 w p) ds = mk 3 w (fold_left (fun a c => a * 10 + (c - 0x30)) ds p).
Proof.
  induction 1 as [|c r Hc Hr IH]; intros w p Hp Hmax; [reflexivity|].
  assert (Hdr : Forall digit r).
  { eapply Forall_impl; [exact Hr|]. unfold nonzero_digit, digit. intros; lia. }
  cbn [fold_left] in Hmax. unfold nonzero_digit in Hc.
  pose proof (fold_decimal_ge r Hdr (p * 10 + (c - 0x30)) ltac:(lia)) as Hge.
  rewrite window_pane_push_chars_cons. unfold push_char at 1. cbn.
  replace ((0x30 <? c) && (c <=? 0x39)) with true by lia. cbn.
  replace (c =? char " ") with false by (vm_compute (char _); lia).
  replace (c =? char "%") with false by (vm_compute (char _); lia). cbn.
  rewrite wrap_int_small by (unfold INT_MIN, INT_MAX in *; lia).
  cbn [fold_left]. apply IH; [lia | assumption].
Qed.

Lemma window_pane_push_to_pane (ws : list Z) :
  Forall nonzero_digit ws -> decimalValue ws <= INT_MAX ->
  push_chars init (char "@" :: ws ++ [char " "; char "%"]) = mk 3 (decimalValue ws) 0.
Proof.
  intros Hws Hmax.
  change (push_chars init (char "@" :: ws ++ [char " "; char "%"]))
    with (push_chars (mk 1 0 0) (ws ++ [char " "; char "%"])).
  rewrite window_pane_push_chars_app, window_pane_push_window_digits by (assumption || lia).
  reflexivity.
Qed.

Lemma window_pane_rejected_stays (rest : list Z) (p : Z) :
  push_chars (mk 4 (-2) p) rest = mk 4 (-2) p.
Proof. induction rest as [|c r IH]; [reflexivity | exact IH]. Qed.

End WindowPaneChangedLines.

(** X19: the line [@<window> %<pane>] of [%window-pane-changed], both ids
    written with the digits 1 to 9, delivers the two decimal values. *)
Theorem window_pane_changed_line (ws ps : list Z) :
  Forall nonzero_digit ws -> Forall nonzero_digit ps ->
  decimalValue ws <= INT_MAX -> decimalValue ps <= INT_MAX ->
  TmuxWindowPaneChangedNotification.execute
    (TmuxWindowPaneChangedNotification.push_chars TmuxWindowPaneChangedNotification.init
       (char "@" :: ws ++ char " " :: char "%" :: ps))
  = receiveWindowPaneChanged (decimalValue ws) (decimalValue ps).
Proof.
  intros Hws Hps Hwmax Hpmax.
  change (char "@" :: ws ++ char " " :: char "%" :: ps)
    with (char "@" :: ws ++ [char " "; char "%"] ++ ps).
  rewrite app_assoc.
  change (char "@" :: (ws ++ [char " "; char "%"]) ++ ps)
    with ((char "@" :: ws ++ [char " "; char "%"]) ++ ps).
  rewrite WindowPaneChangedLines.window_pane_push_chars_app, WindowPaneChangedLines.window_pane_push_to_pane
    by assumption.
  rewrite WindowPaneChangedLines.window_pane_push_pane_digits by (assumption || lia).
  reflexivity.
Qed.

Lemma window_pane_changed_line_witness :
  TmuxWindowPaneChangedNotification.execute
    (TmuxWindowPaneChangedNotification.push_chars TmuxWindowPaneChangedNotification.init
       (lit "@12 %34"))
  = receiveWindowPaneChanged 12 34.
Proof.
  refine (window_pane_changed_line (lit "12") (lit "34") _ _ _ _).
  - now apply nonzero_digits_check.
  - now apply nonzero_digits_check.
  - vm_compute; discriminate.
  - vm_compute; discriminate.
Defined.

(** X20: a ['0'] in the pane id of [%window-pane-changed] is reported on the
    window id: the window delivered is -2, and the pane delivered is the
    value of the digits read before the ['0']. *)
Theorem window_pane_changed_zero_in_pane (ws ps rest : list Z) :
  Forall nonzero_digit ws -> Forall nonzero_digit ps ->
  decimalValue ws <= INT_MAX -> decimalValue ps <= INT_MAX ->
  TmuxWindowPaneChangedNotification.execute
    (TmuxWindowPaneChangedNotification.push_chars TmuxWindowPaneChangedNotification.init
       (char "@" :: ws ++ char " " :: char "%" :: ps ++ char "0" :: rest))
  = receiveWindowPaneChanged (-2) (decimalValue ps).
Proof.
  intros Hws Hps Hwmax Hpmax.
  change (char "@" :: ws ++ char " " :: char "%" :: ps ++ char "0" :: rest)
    with (char "@" :: ws ++ [char " "; char "%"] ++ ps ++ char "0" :: rest).
  rewrite app_assoc.
  change (char "@" :: (ws ++ [char " "; char "%"]) ++ ps ++ char "0" :: rest)
    with ((char "@" :: ws ++ [char " "; char "%"]) ++ ps ++ char "0" :: rest).
  rewrite WindowPaneChangedLines.window_pane_push_chars_app, WindowPaneChangedLines.window_pane_push_to_pane
    by assumption.
  rewrite WindowPaneChangedLines.window_pane_push_chars_app.
  rewrite WindowPaneChangedLines.window_pane_push_pane_digits by (assumption || lia).
  rewrite WindowPaneChangedLines.window_pane_push_chars_cons.
  change (TmuxWindowPaneChangedNotification.push_char
            (TmuxWindowPaneChangedNotification.mk 3 (decimalValue ws)
               (fold_left (fun a c => a * 10 + (c - 0x30)) ps 0)) (char "0"))
    with (TmuxWindowPaneChangedNotification.mk 4 (-2) (decimalValue ps)).
  now rewrite WindowPaneChangedLines.window_pane_rejected_stays.
Qed.

Lemma window_pane_changed_zero_in_pane_witness :
  TmuxWindowPaneChangedNotification.execute
    (TmuxWindowPaneChangedNotification.push_chars TmuxWindowPaneChangedNotification.init
       (lit "@12 %305"))
  = receiveWindowPaneChanged (-2) 3.
Proof.
  refine (window_pane_changed_zero_in_pane (lit "12") (lit "3") (lit "5") _ _ _ _).
  - now apply nonzero_digits_check.
  - now apply nonzero_digits_check.
  - vm_compute; discriminate.
  - vm_compute; discriminate.
Defined.

(** ** [%subscription-changed] *)

Module SubscriptionChangedLines.
Import TmuxSubscriptionChangedNotification.

Lemma subscription_push_chars_app (n : t) (l1 l2 : list Z) :
  push_chars n (l1 ++ l2) = push_chars (push_chars n l1) l2.
Proof. apply fold_left_app. Qed.

Lemma subscription_push_chars_cons (n : t) (cc : Z) (line : list Z) :
  push_chars n (cc :: line) = push_chars (push_char n cc) line.
Proof. reflexivity. Qed.

Lemma subscription_push_other (a : Z) (buf nm : list Z) (s w : option Z) (i : Z) (p : option Z) (cc : Z) :
  cc <> char " " ->
  push_char (mk a buf nm s w i p) cc = mk a (buf ++ [cc]) nm s w i p.
Proof.
  intros Hc. unfold push_char. apply Z.eqb_neq in Hc. now rewrite Hc, !andb_false_r.
Qed.

Lemma subscription_push_text (text : list Z) :
  noSpace text ->
  forall a buf nm s w i p,
  push_chars (mk a buf nm s w i p) text = mk a (buf ++ text) nm s w i p.
Proof.
  induction 1 as [|c r Hc _ IH]; intros a buf nm s w i p.
  - cbn. now rewrite app_nil_r.
  - rewrite subscription_push_chars_cons, subscription_push_other, IH by assumption. now rewrite <- app_assoc.
Qed.

(** Past the sixth argument every character is kept, the space included. *)
Lemma subscription_push_value (value : list Z) :
  forall buf nm s w i p,
  push_chars (mk 6 buf nm s w i p) value = mk 6 (buf ++ value) nm s w i p.
Proof.
  induction value as [|c r IH]; intros buf nm s w i p.
  - cbn. now rewrite app_nil_r.
  - rewrite subscription_push_chars_cons.
    change (push_char (mk 6 buf nm s w i p) c) with (mk 6 (buf ++ [c]) nm s w i p).
    rewrite IH. now rewrite <- app_assoc.
Qed.

Lemma subscription_push_name_space (buf nm : list Z) (s w : option Z) (i : Z) (p : option Z) :
  push_char (mk 0 buf nm s w i p) (char " ") = mk 1 [] buf s w i p.
Proof. reflexivity. Qed.

Lemma subscription_push_session_space (buf nm : list Z) (s w : option Z) (i : Z) (p : option Z) :
  push_char (mk 1 buf nm s w i p) (char " ")
  = mk 2 [] nm (fst (parseTmuxSessionId buf true)) w i p.
Proof.
  unfold push_char. cbn. now destruct (parseTmuxSessionId buf true).
Qed.

Lemma subscription_push_window_space (buf nm : list Z) (s w : option Z) (i : Z) (p : option Z) :
  push_char (mk 2 buf nm s w i p) (char " ")
  = mk 3 [] nm s (fst (parseTmuxWindowId buf true)) i p.
Proof.
  unfold push_char. cbn. now destruct (parseTmuxWindowId buf true).
Qed.

Lemma subscription_push_index_space (buf nm : list Z) (s w : option Z) (i : Z) (p : option Z) :
  push_char (mk 3 buf nm s w i p) (char " ")
  = mk 4 [] nm s w (fst (QString_toInt buf)) p.
Proof.
  unfold push_char, fromUcs4. cbn. now destruct (QString_toInt buf).
Qed.

Lemma subscription_push_pane_space (buf nm : list Z) (s w : option Z) (i : Z) (p : option Z) :
  push_char (mk 4 buf nm s w i p) (char " ")
  = mk 5 [] nm s w i (fst (parseTmuxPaneId buf true)).
Proof.
  unfold push_char. cbn. now destruct (parseTmuxPaneId buf true).
Qed.

Lemma subscription_push_colon (nm : list Z) (s w : option Z) (i : Z) (p : option Z) (value : list Z) :
  push_chars (mk 5 [] nm s w i p) (char ":" :: char " " :: value) = mk 6 value nm s w i p.
Proof.
  rewrite !subscription_push_chars_cons.
  change (push_char (push_char (mk 5 [] nm s w i p) (char ":")) (char " "))
    with (mk 6 [] nm s w i p).
  now rewrite subscription_push_value.
Qed.

End SubscriptionChangedLines.

(** X22: a [%subscription-changed] line is a name, a session id, a window id,
    a window index, a pane id, a colon and a value, separated by single
    spaces.  [execute] delivers the name, what [parseTmuxId] makes of the
    three ids, what [QString::toInt] makes of the index, and the value up to
    the end of the line, its spaces included. *)
Theorem subscription_changed_line (nm stext wtext itext ptext value : list Z) :
  noSpace nm -> noSpace stext -> noSpace wtext -> noSpace itext -> noSpace ptext ->
  TmuxSubscriptionChangedNotification.execute
    (TmuxSubscriptionChangedNotification.push_chars TmuxSubscriptionChangedNotification.init
       (nm ++ char " " :: stext ++ char " " :: wtext ++ char " " :: itext ++ char " "
           :: ptext ++ char " " :: char ":" :: char " " :: value))
  = receiveSubscriptionChanged nm
      (fst (parseTmuxSessionId stext true)) (fst (parseTmuxWindowId wtext true))
      (fst (QString_toInt itext)) (fst (parseTmuxPaneId ptext true)) value.
Proof.
  intros Hn Hs Hw Hi Hp.
  change TmuxSubscriptionChangedNotification.init
    with (TmuxSubscriptionChangedNotification.mk 0 [] [] (Some 0) (Some 0) 0 (Some 0)).
  rewrite SubscriptionChangedLines.subscription_push_chars_app, (SubscriptionChangedLines.subscription_push_text nm Hn).
  rewrite SubscriptionChangedLines.subscription_push_chars_cons, SubscriptionChangedLines.subscription_push_name_space.
  rewrite SubscriptionChangedLines.subscription_push_chars_app, (SubscriptionChangedLines.subscription_push_text stext Hs).
  rewrite SubscriptionChangedLines.subscription_push_chars_cons, SubscriptionChangedLines.subscription_push_session_space.
  rewrite SubscriptionChangedLines.subscription_push_chars_app, (SubscriptionChangedLines.subscription_push_text wtext Hw).
  rewrite SubscriptionChangedLines.subscription_push_chars_cons, SubscriptionChangedLines.subscription_push_window_space.
  rewrite SubscriptionChangedLines.subscription_push_chars_app, (SubscriptionChangedLines.subscription_push_text itext Hi).
  rewrite SubscriptionChangedLines.subscription_push_chars_cons, SubscriptionChangedLines.subscription_push_index_space.
  rewrite SubscriptionChangedLines.subscription_push_chars_app, (SubscriptionChangedLines.subscription_push_text ptext Hp).
  rewrite SubscriptionChangedLines.subscription_push_chars_cons, SubscriptionChangedLines.subscription_push_pane_space.
  rewrite SubscriptionChangedLines.subscription_push_colon.
  reflexivity.
Qed.

Lemma subscription_changed_line_witness :
  TmuxSubscriptionChangedNotification.execute
    (TmuxSubscriptionChangedNotification.push_chars TmuxSubscriptionChangedNotification.init
       (lit "load $1 @2 3 %4 : 0.5 0.7"))
  = receiveSubscriptionChanged (lit "load") (Some 1) (Some 2) 3 (Some 4) (lit "0.5 0.7").
Proof.
  refine (subscription_changed_line (lit "load") (lit "$1") (lit "@2") (lit "3") (lit "%4")
            (lit "0.5 0.7") _ _ _ _ _);
    repeat constructor; discriminate.
Defined.

(** ** [%client-session-changed] *)

Module ClientSessionChangedLines.
Import TmuxClientSessionChangedNotification.

Lemma client_push_chars_app (n : t) (l1 l2 : list Z) :
  push_chars n (l1 ++ l2) = push_chars (push_chars n l1) l2.
Proof. apply fold_left_app. Qed.

Lemma client_push_chars_cons (n : t) (cc : Z) (line : list Z) :
  push_chars n (cc :: line) = push_chars (push_char n cc) line.
Proof. reflexivity. Qed.

Lemma client_push_text (text : list Z) :
  noSpace text ->
  forall a buf cl s,
  push_chars (mk a buf cl s) text = mk a (buf ++ text) cl s.
Proof.
  induction 1 as [|c r Hc _ IH]; intros a buf cl s.
  - cbn. now rewrite app_nil_r.
  - rewrite client_push_chars_cons.
    assert (Hstep : push_char (mk a buf cl s) c = mk a (buf ++ [c]) cl s).
    { unfold push_char. apply Z.eqb_neq in Hc. now rewrite Hc. }
    rewrite Hstep, IH. now rewrite <- app_assoc.
Qed.

Lemma client_push_name (nm : list Z) :
  forall buf cl s,
  push_chars (mk 2 buf cl s) nm = mk 2 (buf ++ nm) cl s.
Proof.
  induction nm as [|c r IH]; intros buf cl s.
  - cbn. now rewrite app_nil_r.
  - rewrite client_push_chars_cons.
    assert (Hstep : push_char (mk 2 buf cl s) c = mk 2 (buf ++ [c]) cl s).
    { unfold push_char. cbn. now rewrite !andb_false_r. }
    rewrite Hstep, IH. now rewrite <- app_assoc.
Qed.

Lemma client_push_client_space (buf cl : list Z) (s : Z) :
  push_char (mk 0 buf cl s) (char " ") = mk 1 [] buf s.
Proof. reflexivity. Qed.

Lemma client_push_session_space (buf cl : list Z) (s : Z) :
  push_char (mk 1 buf cl s) (char " ")
  = mk 2 [] cl match parseTmuxSessionId buf true with
               | (Some ret, Some true) => ret
               | _ => -2
               end.
Proof. reflexivity. Qed.

End ClientSessionChangedLines.

(** X23: the line [<client> $<digits> <name>] of [%client-session-changed]
    delivers the client, the decimal value and the name, which runs to the
    end of the line.  When the line ends after the session id, the session
    delivered is the -2 of the constructor and the id text is delivered as
    the name. *)
Theorem client_session_changed_line (cl ds nm : list Z) :
  noSpace cl -> ds <> [] -> Forall digit ds -> decimalValue ds <= INT_MAX ->
  TmuxClientSessionChangedNotification.execute
    (TmuxClientSessionChangedNotification.push_chars TmuxClientSessionChangedNotification.new
       (cl ++ char " " :: char "$" :: ds ++ char " " :: nm))
  = receiveClientSessionChanged cl (decimalValue ds) nm
  /\ TmuxClientSessionChangedNotification.execute
       (TmuxClientSessionChangedNotification.push_chars
          TmuxClientSessionChangedNotification.new (cl ++ char " " :: char "$" :: ds))
     = receiveClientSessionChanged cl (-2) (char "$" :: ds).
Proof.
  intros Hcl Hne Hds Hmax.
  assert (Hid : noSpace (char "$" :: ds))
    by (constructor; [discriminate | now apply digits_noSpace]).
  change TmuxClientSessionChangedNotification.new
    with (TmuxClientSessionChangedNotification.mk 0 [] [] (-2)).
  split.
  - change (cl ++ char " " :: char "$" :: ds ++ char " " :: nm)
      with (cl ++ char " " :: (char "$" :: ds) ++ char " " :: nm).
    rewrite ClientSessionChangedLines.client_push_chars_app, (ClientSessionChangedLines.client_push_text cl Hcl).
    rewrite ClientSessionChangedLines.client_push_chars_cons, ClientSessionChangedLines.client_push_client_space.
    rewrite ClientSessionChangedLines.client_push_chars_app, (ClientSessionChangedLines.client_push_text _ Hid).
    rewrite ClientSessionChangedLines.client_push_chars_cons, ClientSessionChangedLines.client_push_session_space.
    cbn [app]. unfold parseTmuxSessionId. rewrite parseTmuxId_digits by assumption.
    now rewrite ClientSessionChangedLines.client_push_name.
  - rewrite ClientSessionChangedLines.client_push_chars_app, (ClientSessionChangedLines.client_push_text cl Hcl).
    rewrite ClientSessionChangedLines.client_push_chars_cons, ClientSessionChangedLines.client_push_client_space.
    now rewrite (ClientSessionChangedLines.client_push_text _ Hid).
Qed.

Lemma client_session_changed_line_witness :
  TmuxClientSessionChangedNotification.execute
    (TmuxClientSessionChangedNotification.push_chars TmuxClientSessionChangedNotification.new
       (lit "/dev/pts/3 $12 my work"))
  = receiveClientSessionChanged (lit "/dev/pts/3") 12 (lit "my work").
Proof.
  refine (proj1 (client_session_changed_line (lit "/dev/pts/3") (lit "12") (lit "my work")
                   _ _ _ _)).
  - repeat constructor; discriminate.
  - discriminate.
  - now apply digits_check.
  - vm_compute; discriminate.
Defined.

(** ** [%continue] *)

Lemma continue_buffer (line : list Z) :
  forall n,
  TmuxContinueNotification.lexBuffer (TmuxContinueNotification.push_chars n line)
  = TmuxContinueNotification.lexBuffer n ++ line.
Proof.
  induction line as [|c r IH]; intros n; cbn.
  - now rewrite app_nil_r.
  - change (TmuxContinueNotification.lexBuffer
              (TmuxContinueNotification.push_chars (TmuxContinueNotification.push_char n c) r)
            = TmuxContinueNotification.lexBuffer n ++ c :: r).
    rewrite IH. cbn. now rewrite <- app_assoc.
Qed.

(** X24: [%continue] calls [receiveContinue] with the decimal value for the
    line [%<digits>] and with -1 for the line [%*]; for a line that is
    shorter than two characters or does not start with [%] it makes no
    call.  In each case the buffer is empty afterwards. *)
Theorem continue_line (line : list Z) :
  (forall ds, line = char "%" :: ds -> ds <> [] -> Forall digit ds ->
     decimalValue ds <= INT_MAX ->
     TmuxContinueNotification.execute
       (TmuxContinueNotification.push_chars TmuxContinueNotification.init line)
     = (TmuxContinueNotification.init, Some (receiveContinue (decimalValue ds))))
  /\ (line = [char "%"; char "*"] ->
      TmuxContinueNotification.execute
        (TmuxContinueNotification.push_chars TmuxContinueNotification.init line)
      = (TmuxContinueNotification.init, Some (receiveContinue (-1))))
  /\ ((length line < 2)%nat \/ nth 0 line 0 <> char "%" ->
      TmuxContinueNotification.execute
        (TmuxContinueNotification.push_chars TmuxContinueNotification.init line)
      = (TmuxContinueNotification.init, None)).
Proof.
  unfold TmuxContinueNotification.execute.
  rewrite continue_buffer. cbn [TmuxContinueNotification.init TmuxContinueNotification.lexBuffer app].
  repeat split.
  - intros ds -> Hne Hds Hmax. unfold parseTmuxPaneId.
    now rewrite parseTmuxId_digits.
  - intros ->. reflexivity.
  - intros Hbad. unfold parseTmuxPaneId. now rewrite parseTmuxId_reject.
Qed.

Lemma continue_line_witness :
  TmuxContinueNotification.execute
    (TmuxContinueNotification.push_chars TmuxContinueNotification.init (lit "%12"))
  = (TmuxContinueNotification.init, Some (receiveContinue 12)).
Proof.
  refine (proj1 (continue_line (lit "%12")) (lit "12") eq_refl _ _ _).
  - discriminate.
  - now apply digits_check.
  - vm_compute; discriminate.
Defined.

(** * The controller over whole runs *)

Lemma receiveSessionChanged_new (m : TmuxServerManager.t) (s : Z) (nm : QString) :
  TmuxServerManager.m_sessions m !! s = None ->
  exists q,
    TmuxServerManager.receiveSessionChanged m s nm
    = (TmuxServerManager.with_activeSession s
         (fst (TmuxServerManager.sendCommand
                 (TmuxServerManager.with_sessions
                    (<[s:=mkSession nm None]> (TmuxServerManager.m_sessions m)) m) q)),
       snd (TmuxServerManager.sendCommand
              (TmuxServerManager.with_sessions
                 (<[s:=mkSession nm None]> (TmuxServerManager.m_sessions m)) m) q)).
Proof.
  intros Hs. unfold TmuxServerManager.receiveSessionChanged. rewrite Hs.
  exists (TmuxCommand.make temporary
            (QString_arg (lit "show -v -q -t $%1 @konsole_size")
               (TmuxServerManager.m_activeSession m))
            (Some (konsoleSizeHandler s)) None).
  cbn [TmuxServerManager.with_sessions TmuxServerManager.m_activeSession].
  now destruct (TmuxServerManager.sendCommand _ _).
Qed.

Lemma sendCommand_slot (m : TmuxServerManager.t) (c : TmuxCommand.t) :
  TmuxCommand.command
    (TmuxServerManager.m_currentCommand (fst (TmuxServerManager.sendCommand m c)))
  = default (TmuxCommand.command (TmuxServerManager.m_currentCommand m))
      (last (sentCommands (snd (TmuxServerManager.sendCommand m c)))).
Proof.
  unfold TmuxServerManager.sendCommand.
  now destruct (TmuxCommand.to_bool (TmuxServerManager.m_currentCommand m)).
Qed.

Lemma step_slot (m m1 : TmuxServerManager.t) (ev : Event) (e1 : list Effect) :
  step m ev = Some (m1, e1) ->
  TmuxCommand.command (TmuxServerManager.m_currentCommand m1)
  = default (TmuxCommand.command (TmuxServerManager.m_currentCommand m))
      (last (sentCommands e1)).
Proof.
  destruct ev as [c|r|r| |s nm]; cbn [step]; intros Hstep.
  - injection Hstep as Hstep. pose proof (sendCommand_slot m c) as H.
    now rewrite Hstep in H.
  - injection Hstep as Hstep. revert Hstep.
    unfold TmuxServerManager.receiveCommandResponse, TmuxServerManager.execute.
    destruct (TmuxCommand.to_bool (TmuxServerManager.m_currentCommand m));
      [|now intros [= <- <-]].
    cbv zeta.
    destruct (TmuxCommand.m_responseHandler (TmuxServerManager.m_currentCommand m)) as [h|].
    + pose proof (callResponseHandler_frame h m r) as (Fc & Fq & Fh & Fs).
      destruct (TmuxServerManager.callResponseHandler h m r) as [m2 e2].
      cbn in Fc, Fq, Fh, Fs. cbn.
      destruct (TmuxServerManager.m_pendingCommands m2) as [|next rest]; cbn;
        intros [= <- <-]; cbn.
      * now rewrite Fs.
      * unfold sentCommands in *. rewrite omap_app, Fs. reflexivity.
    + destruct (TmuxServerManager.m_pendingCommands m) as [|next rest];
        now intros [= <- <-].
  - destruct (receiveCommandError_defined m m1 r e1 Hstep) as (_ & _ & Hcmd & Hs & _).
    now rewrite Hs, Hcmd.
  - injection Hstep as Hstep. pose proof (sendCommand_slot m
      (TmuxCommand.make temporary (lit "ls -F '#{session_id} #{q:session_name}'")
         (Some initHandler) None)) as H.
    unfold TmuxServerManager.init in Hstep. now rewrite Hstep in H.
  - injection Hstep as Hstep. revert Hstep.
    destruct (TmuxServerManager.m_sessions m !! s) eqn:Hs.
    + unfold TmuxServerManager.receiveSessionChanged. rewrite Hs. now intros [= <- <-].
    + destruct (receiveSessionChanged_new m s nm Hs) as [q ->].
      unfold TmuxServerManager.sendCommand.
      cbn [TmuxServerManager.with_sessions TmuxServerManager.m_currentCommand].
      destruct (TmuxCommand.to_bool (TmuxServerManager.m_currentCommand m));
        now intros [= <- <-].
Qed.

(** X25: the slot and the outbound channel stay in step.  After any run whose
    behaviour is defined, from any state, the text of the command in the slot
    is the text sent last, or the text it had at the start when the run has
    sent nothing. *)
Theorem slot_holds_last_sent (evs : list Event) (m m' : TmuxServerManager.t)
    (es : list Effect) :
  run m evs = Some (m', es) ->
  TmuxCommand.command (TmuxServerManager.m_currentCommand m')
  = default (TmuxCommand.command (TmuxServerManager.m_currentCommand m))
      (last (sentCommands es)).
Proof.
  revert m es. induction evs as [|ev rest IH]; intros m es Hrun.
  - now inversion Hrun.
  - apply run_cons_inv in Hrun as (m1 & e1 & e2 & Hstep & Hrun & ->).
    rewrite (IH m1 e2 Hrun), (step_slot m m1 ev e1 Hstep).
    unfold sentCommands. rewrite omap_app, last_app.
    now destruct (last (omap _ e2)).
Qed.

Lemma slot_holds_last_sent_witness :
  exists m' es,
    run TmuxServerManager.new
      [Send (clientCommand 1); ErrorResponse [lit "no"]; SessionChanged 0 (lit "a");
       EndOfResponse []; Init]
    = Some (m', es)
    /\ TmuxCommand.command (TmuxServerManager.m_currentCommand m') = lit "".
Proof.
  eexists _, _. split; [reflexivity|].
  exact (slot_holds_last_sent
           [Send (clientCommand 1); ErrorResponse [lit "no"]; SessionChanged 0 (lit "a");
            EndOfResponse []; Init]
           TmuxServerManager.new _ _ eq_refl).
Defined.

Lemma idle_step (m : TmuxServerManager.t) (ev : Event) :
  TmuxCommand.to_bool (TmuxServerManager.m_currentCommand m) = false ->
  isResponse ev ->
  exists e,
    step m ev = Some (m, e)
    /\ sentCommands e = []
    /\ calledResponseHandlers e = [].
Proof.
  intros Hc Hev. destruct ev as [c|r|r| |s nm]; cbn in Hev; try contradiction; cbn [step].
  - unfold TmuxServerManager.receiveCommandResponse. rewrite Hc. now eexists.
  - unfold TmuxServerManager.receiveCommandError. rewrite Hc. now eexists.
Qed.

Lemma idle_run (evs : list Event) (m : TmuxServerManager.t) :
  TmuxCommand.to_bool (TmuxServerManager.m_currentCommand m) = false ->
  Forall isResponse evs ->
  exists es,
    run m evs = Some (m, es)
    /\ sentCommands es = []
    /\ calledResponseHandlers es = [].
Proof.
  intros Hc. induction 1 as [|ev rest Hev _ IH]; [now exists []|].
  destruct (idle_step m ev Hc Hev) as (e1 & Hstep & Hs & Hh).
  destruct IH as (e2 & Hrun & IHs & IHh).
  exists (e1 ++ e2). split; [now apply (run_cons m m)|].
  unfold sentCommands, calledResponseHandlers in *.
  now rewrite !omap_app, Hs, Hh, IHs, IHh.
Qed.

(** X26: an error response stalls the queue.  With a command in flight whose
    error handler does not read a destroyed command object, the error
    response and any number of further responses, successful or not, are a
    defined run that takes no command from the queue, sends none and calls
    no response handler. *)
Theorem queue_stalls_after_error (m : TmuxServerManager.t) (r : Response)
    (evs : list Event) :
  TmuxCommand.to_bool (TmuxServerManager.m_currentCommand m) = true ->
  TmuxCommand.m_errorHandler (TmuxServerManager.m_currentCommand m)
  <> Some (defaultErrorHandler destroyed) ->
  Forall isResponse evs ->
  exists m' es,
    run m (ErrorResponse r :: evs) = Some (m', es)
    /\ TmuxServerManager.m_pendingCommands m' = TmuxServerManager.m_pendingCommands m
    /\ sentCommands es = []
    /\ calledResponseHandlers es = [].
Proof.
  intros Hc Hne Hevs.
  destruct (to_bool_handlers _ Hc) as (h & e & Hh & He).
  assert (Hne' : e <> defaultErrorHandler destroyed) by congruence.
  destruct (callErrorHandler_defined e r Hne') as (e0 & Hcall & Hs0 & Hh0).
  set (m1 := TmuxServerManager.with_current
               {| TmuxCommand.m_command :=
                    TmuxCommand.m_command (TmuxServerManager.m_currentCommand m);
                  TmuxCommand.m_responseHandler := Some h;
                  TmuxCommand.m_errorHandler := None |} m).
  assert (Herr : TmuxServerManager.receiveCommandError m r
                 = Some (m1, errorHandlerCalled
                               (TmuxCommand.m_command (TmuxServerManager.m_currentCommand m))
                               e r :: e0)).
  { unfold TmuxServerManager.receiveCommandError, TmuxServerManager.executeError.
    rewrite Hc. cbv zeta. now rewrite He, Hh, Hcall. }
  destruct (idle_run evs m1 eq_refl Hevs) as (e2 & Hrun & Hs & Hcalled).
  eexists m1, _. split; [exact (run_cons m m1 m1 (ErrorResponse r) evs _ e2 Herr Hrun)|].
  unfold sentCommands, calledResponseHandlers in *.
  rewrite !omap_app, Hs, Hcalled, !app_nil_r.
  split; [reflexivity|]. split; [exact Hs0 | exact Hh0].
Qed.

Lemma queue_stalls_after_error_witness :
  let m := fst (TmuxServerManager.sendCommand
                  (fst (TmuxServerManager.sendCommand TmuxServerManager.new (clientCommand 1)))
                  (clientCommand 2)) in
  exists m' es,
    run m [ErrorResponse []; EndOfResponse []; ErrorResponse []; EndOfResponse []]
    = Some (m', es)
    /\ TmuxServerManager.m_pendingCommands m' = TmuxServerManager.m_pendingCommands m
    /\ sentCommands es = []
    /\ calledResponseHandlers es = [].
Proof.
  refine (queue_stalls_after_error
            (fst (TmuxServerManager.sendCommand
                    (fst (TmuxServerManager.sendCommand TmuxServerManager.new (clientCommand 1)))
                    (clientCommand 2)))
            [] [EndOfResponse []; ErrorResponse []; EndOfResponse []] eq_refl _ _).
  - discriminate.
  - repeat constructor.
Defined.

Lemma callResponseHandler_keeps_sessions (h : ResponseHandler) (m : TmuxServerManager.t)
    (r : Response) (k : Z) :
  is_Some (TmuxServerManager.m_sessions m !! k) ->
  is_Some (TmuxServerManager.m_sessions (fst (TmuxServerManager.callResponseHandler h m r)) !! k).
Proof.
  intros Hk. destruct h as [| |session|tag]; cbn; try assumption.
  unfold TmuxServerManager.konsoleSize.
  destruct r as [|line [|line' rest]]; cbn; try assumption.
  destruct (TmuxServerManager.scanKonsoleSize line 0 0 0) as [cc|[w hgt]]; cbn; try assumption.
  destruct (TmuxServerManager.m_sessions m !! session); cbn; try assumption.
  apply lookup_insert_is_Some'. now right.
Qed.

Lemma sendCommand_sessions (m : TmuxServerManager.t) (c : TmuxCommand.t) :
  TmuxServerManager.m_sessions (fst (TmuxServerManager.sendCommand m c))
  = TmuxServerManager.m_sessions m.
Proof.
  unfold TmuxServerManager.sendCommand.
  now destruct (TmuxCommand.to_bool (TmuxServerManager.m_currentCommand m)).
Qed.

Lemma step_keeps_sessions (m m1 : TmuxServerManager.t) (ev : Event) (e1 : list Effect)
    (k : Z) :
  step m ev = Some (m1, e1) ->
  is_Some (TmuxServerManager.m_sessions m !! k) ->
  is_Some (TmuxServerManager.m_sessions m1 !! k).
Proof.
  intros Hstep Hk. destruct ev as [c|r|r| |s nm]; cbn [step] in Hstep.
  - injection Hstep as Hstep. pose proof (sendCommand_sessions m c) as H.
    rewrite Hstep in H. cbn in H. now rewrite H.
  - injection Hstep as Hstep. revert Hstep.
    unfold TmuxServerManager.receiveCommandResponse, TmuxServerManager.execute.
    destruct (TmuxCommand.to_bool (TmuxServerManager.m_currentCommand m));
      [|now intros [= <- <-]].
    cbv zeta.
    destruct (TmuxCommand.m_responseHandler (TmuxServerManager.m_currentCommand m)) as [h|].
    + pose proof (callResponseHandler_keeps_sessions h m r k Hk) as Hs.
      destruct (TmuxServerManager.callResponseHandler h m r) as [m2 e2]. cbn in Hs. cbn.
      destruct (TmuxServerManager.m_pendingCommands m2); now intros [= <- <-].
    + destruct (TmuxServerManager.m_pendingCommands m); now intros [= <- <-].
  - destruct (receiveCommandError_defined m m1 r e1 Hstep) as (_ & Hs & _).
    now rewrite Hs.
  - injection Hstep as Hstep. unfold TmuxServerManager.init in Hstep.
    pose proof (sendCommand_sessions m
      (TmuxCommand.make temporary (lit "ls -F '#{session_id} #{q:session_name}'")
         (Some initHandler) None)) as H.
    rewrite Hstep in H. cbn in H. now rewrite H.
  - injection Hstep as Hstep. revert Hstep.
    destruct (TmuxServerManager.m_sessions m !! s) eqn:Hs.
    + unfold TmuxServerManager.receiveSessionChanged. rewrite Hs.
      intros [= <- <-].
      cbn [fst TmuxServerManager.with_activeSession TmuxServerManager.with_sessions
           TmuxServerManager.m_sessions].
      apply lookup_insert_is_Some'. now right.
    + destruct (receiveSessionChanged_new m s nm Hs) as [q ->].
      intros [= <- <-].
      cbn [fst TmuxServerManager.with_activeSession TmuxServerManager.m_sessions].
      rewrite sendCommand_sessions.
      cbn [TmuxServerManager.with_sessions TmuxServerManager.m_sessions].
      apply lookup_insert_is_Some'. now right.
Qed.

(** X27: the controller never forgets a session.  A session that is in the
    table is in the table after every run of commands, responses, errors and
    notifications whose behaviour is defined. *)
Theorem sessions_never_removed (evs : list Event) (m m' : TmuxServerManager.t)
    (es : list Effect) (k : Z) :
  run m evs = Some (m', es) ->
  is_Some (TmuxServerManager.m_sessions m !! k) ->
  is_Some (TmuxServerManager.m_sessions m' !! k).
Proof.
  revert m es. induction evs as [|ev rest IH]; intros m es Hrun Hk.
  - now inversion Hrun; subst.
  - apply run_cons_inv in Hrun as (m1 & e1 & e2 & Hstep & Hrun & ->).
    apply (IH m1 e2 Hrun). now apply (step_keeps_sessions m m1 ev e1).
Qed.

Lemma sessions_never_removed_witness :
  exists m' es,
    run (fst (TmuxServerManager.receiveSessionChanged TmuxServerManager.new 0 (lit "a")))
      [Send (clientCommand 1); EndOfResponse [lit "80,24"]; EndOfResponse [];
       ErrorResponse []; SessionChanged 1 (lit "b"); Init]
    = Some (m', es)
    /\ is_Some (TmuxServerManager.m_sessions m' !! 0).
Proof.
  eexists _, _. split; [reflexivity|].
  refine (sessions_never_removed
            [Send (clientCommand 1); EndOfResponse [lit "80,24"]; EndOfResponse [];
             ErrorResponse []; SessionChanged 1 (lit "b"); Init]
            (fst (TmuxServerManager.receiveSessionChanged TmuxServerManager.new 0 (lit "a")))
            _ _ 0 eq_refl _).
  eexists. reflexivity.
Defined.

(** X28: the size of a session is asked for once.  A second
    [%session-changed] for the same session, whatever the two names, sends
    and queues nothing; it only renames the session. *)
Theorem session_size_queried_once (m : TmuxServerManager.t) (s : Z) (n1 n2 : QString) :
  let r1 := TmuxServerManager.receiveSessionChanged m s n1 in
  let r2 := TmuxServerManager.receiveSessionChanged (fst r1) s n2 in
  snd r2 = []
  /\ TmuxServerManager.m_pendingCommands (fst r2) = TmuxServerManager.m_pendingCommands (fst r1)
  /\ TmuxServerManager.m_currentCommand (fst r2) = TmuxServerManager.m_currentCommand (fst r1)
  /\ m_name <$> (TmuxServerManager.m_sessions (fst r2) !! s) = Some n2.
Proof.
  cbv zeta.
  assert (Hin : is_Some (TmuxServerManager.m_sessions
                           (fst (TmuxServerManager.receiveSessionChanged m s n1)) !! s)).
  { destruct (TmuxServerManager.m_sessions m !! s) eqn:Hs.
    - unfold TmuxServerManager.receiveSessionChanged. rewrite Hs.
      cbn [fst TmuxServerManager.with_activeSession TmuxServerManager.with_sessions
           TmuxServerManager.m_sessions].
      rewrite lookup_insert_eq. now eexists.
    - destruct (receiveSessionChanged_new m s n1 Hs) as [q ->].
      cbn [fst TmuxServerManager.with_activeSession TmuxServerManager.m_sessions].
      rewrite sendCommand_sessions.
      cbn [TmuxServerManager.with_sessions TmuxServerManager.m_sessions].
      rewrite lookup_insert_eq. now eexists. }
  destruct Hin as [rec Hrec].
  generalize dependent (fst (TmuxServerManager.receiveSessionChanged m s n1)).
  intros m1 Hrec.
  unfold TmuxServerManager.receiveSessionChanged. rewrite Hrec.
  cbn [fst snd TmuxServerManager.with_activeSession TmuxServerManager.with_sessions
       TmuxServerManager.m_sessions TmuxServerManager.m_pendingCommands
       TmuxServerManager.m_currentCommand].
  rewrite lookup_insert_eq. auto.
Qed.

Lemma scanKonsoleSize_bad_char (line : list Z) (c : Z) :
  In c line -> ~ digit c -> c <> char "," ->
  forall arg w h, exists cc, TmuxServerManager.scanKonsoleSize line arg w h = inl cc.
Proof.
  induction line as [|d r IH]; intros Hin Hd Hc arg w h; [destruct Hin|].
  cbn [TmuxServerManager.scanKonsoleSize].
  destruct ((0x30 <=? d) && (d <=? 0x39)) eqn:Hdig.
  - destruct Hin as [->|Hin]; [exfalso; apply Hd; unfold digit; lia|].
    destruct (arg =? 0); now apply IH.
  - destruct ((arg =? 0) && (d =? char ",")) eqn:Hcomma; [|now eexists].
    destruct Hin as [->|Hin]; [|now apply IH].
    apply andb_true_iff in Hcomma as [_ Hcomma]. apply Z.eqb_eq in Hcomma. contradiction.
Qed.

Lemma scanKonsoleSize_second_comma (ws rest : list Z) :
  forall w h,
  exists cc, TmuxServerManager.scanKonsoleSize (ws ++ char "," :: rest) 1 w h = inl cc.
Proof.
  induction ws as [|d r IH]; intros w h; cbn [app TmuxServerManager.scanKonsoleSize].
  - cbn. now eexists.
  - destruct ((0x30 <=? d) && (d <=? 0x39)); cbn; [apply IH | now eexists].
Qed.

Lemma scanKonsoleSize_first_comma (ws rest : list Z) :
  Forall digit ws ->
  forall w,
  exists w', TmuxServerManager.scanKonsoleSize (ws ++ char "," :: rest) 0 w 0
             = TmuxServerManager.scanKonsoleSize rest 1 w' 0.
Proof.
  induction 1 as [|d r Hd _ IH]; intros w; cbn [app TmuxServerManager.scanKonsoleSize].
  - cbn. now eexists.
  - unfold digit in Hd. replace ((0x30 <=? d) && (d <=? 0x39)) with true by lia. cbn.
    apply IH.
Qed.

(** X29: a size response that is not digits, one comma, digits leaves the
    controller as it was: the handler returns at the first character that is
    neither a digit nor a comma, and at a second comma. *)
Theorem konsole_size_malformed (m : TmuxServerManager.t) (session : Z) (line : list Z) :
  (forall c, In c line -> ~ digit c -> c <> char "," ->
     fst (TmuxServerManager.callResponseHandler (konsoleSizeHandler session) m [line]) = m)
  /\ (forall ws hs rest, line = ws ++ char "," :: hs ++ char "," :: rest -> Forall digit ws ->
        fst (TmuxServerManager.callResponseHandler (konsoleSizeHandler session) m [line]) = m).
Proof.
  split.
  - intros c Hin Hd Hc. cbn. unfold TmuxServerManager.konsoleSize.
    destruct (scanKonsoleSize_bad_char line c Hin Hd Hc 0 0 0) as [cc ->]. reflexivity.
  - intros ws hs rest -> Hws. cbn. unfold TmuxServerManager.konsoleSize.
    destruct (scanKonsoleSize_first_comma ws (hs ++ char "," :: rest) Hws 0) as [w' ->].
    destruct (scanKonsoleSize_second_comma hs rest w' 0) as [cc ->]. reflexivity.
Qed.

Lemma konsole_size_malformed_witness :
  fst (TmuxServerManager.callResponseHandler (konsoleSizeHandler 0)
         (fst (TmuxServerManager.receiveSessionChanged TmuxServerManager.new 0 (lit "a")))
         [lit "80x24"])
  = fst (TmuxServerManager.receiveSessionChanged TmuxServerManager.new 0 (lit "a")).
Proof.
  refine (proj1 (konsole_size_malformed
                   (fst (TmuxServerManager.receiveSessionChanged TmuxServerManager.new 0 (lit "a")))
                   0 (lit "80x24")) (char "x") _ _ _).
  - right; right; left; reflexivity.
  - unfold digit. vm_compute. intros [_ H]. now apply H.
  - discriminate.
Defined.

(** X30: a command built without response handler does not count as in
    flight.  Sent with nothing in flight it goes on the outbound channel, and
    the next command sent replaces it in the slot and goes out at once,
    without waiting for a response. *)
Theorem handlerless_command_is_overwritten (m : TmuxServerManager.t)
    (c c' : TmuxCommand.t) :
  TmuxCommand.to_bool (TmuxServerManager.m_currentCommand m) = false ->
  TmuxCommand.m_responseHandler c = None ->
  exists m' es,
    run m [Send c; Send c'] = Some (m', es)
    /\ sentCommands es = [TmuxCommand.command c; TmuxCommand.command c']
    /\ TmuxServerManager.m_currentCommand m' = c'
    /\ TmuxServerManager.m_pendingCommands m' = TmuxServerManager.m_pendingCommands m.
Proof.
  intros Hidle Hnull. cbn.
  rewrite sendCommand_idle by assumption.
  rewrite sendCommand_idle.
  - eexists _, _. split; [reflexivity|]. cbn. auto.
  - cbn. unfold TmuxCommand.to_bool. now rewrite Hnull.
Qed.

Lemma handlerless_command_is_overwritten_witness :
  exists m' es,
    run TmuxServerManager.new
      [Send (TmuxCommand.make kept (lit "kill-server") None None); Send (clientCommand 1)]
    = Some (m', es)
    /\ sentCommands es = [lit "kill-server"; lit "cmd"]
    /\ TmuxServerManager.m_currentCommand m' = clientCommand 1
    /\ TmuxServerManager.m_pendingCommands m'
       = TmuxServerManager.m_pendingCommands TmuxServerManager.new.
Proof.
  exact (handlerless_command_is_overwritten TmuxServerManager.new
           (TmuxCommand.make kept (lit "kill-server") None None) (clientCommand 1)
           eq_refl eq_refl).
Defined.
